(** * PYPOWER [psse2case]: PSS/E raw file to PYPOWER case conversion

    A shallow embedding of [pypower/psse2case.py].  Rows produced by the
    [csv] reader are lists of strings, the numeric tables built with
    [numpy.zeros] and [r_] are lists of rows of binary64 values, the
    [busmap] dictionary is a finite map from strings to row indices, and
    Python exceptions and [logger] calls are made explicit by a small
    error-and-log monad. *)

From Stdlib Require Import ZArith List String Ascii Lia SpecFloat.
From stdpp Require Import base option list gmap strings pretty.

Open Scope string_scope.

(** ** Python strings *)

Module PyStr.

Local Open Scope Z_scope.

(** [s.split("/")[0]]: the part of [s] before the first ["/"]. *)
Fixpoint before_slash (s : string) : string :=
  match s with
  | EmptyString => EmptyString
  | String c s' =>
      if Ascii.eqb c "/" then EmptyString else String c (before_slash s')
  end.

(** [c in s] for a one-character string [c]. *)
Fixpoint contains (c : ascii) (s : string) : bool :=
  match s with
  | EmptyString => false
  | String d s' => Ascii.eqb d c || contains c s'
  end.

(** The characters removed by [str.strip()] without argument. *)
Definition whitespace (c : ascii) : bool :=
  let n := nat_of_ascii c in
  (Nat.eqb n 32 || (Nat.leb 9 n && Nat.leb n 13))%bool.

Fixpoint lstrip (p : ascii -> bool) (s : string) : string :=
  match s with
  | EmptyString => EmptyString
  | String c s' => if p c then lstrip p s' else s
  end.

Fixpoint rstrip (p : ascii -> bool) (s : string) : string :=
  match s with
  | EmptyString => EmptyString
  | String c s' =>
      match rstrip p s' with
      | EmptyString => if p c then EmptyString else String c EmptyString
      | r => String c r
      end
  end.

(** [s.strip()] *)
Definition strip (s : string) : string :=
  rstrip whitespace (lstrip whitespace s).

(** [s.strip("'")] *)
Definition strip_quote (s : string) : string :=
  rstrip (Ascii.eqb "'") (lstrip (Ascii.eqb "'") s).

(** [os.path.basename]: what follows the last ["/"]. *)
Fixpoint basename_from (cur : string) (s : string) : string :=
  match s with
  | EmptyString => cur
  | String c s' =>
      if Ascii.eqb c "/" then basename_from s' s' else basename_from cur s'
  end.

Definition basename (s : string) : string := basename_from s s.

Definition digit (c : ascii) : option Z :=
  let n := nat_of_ascii c in
  if (Nat.leb 48 n && Nat.leb n 57)%bool
  then Some (Z.of_nat n - 48) else None.

Fixpoint digits (acc : Z) (s : string) : option Z :=
  match s with
  | EmptyString => Some acc
  | String c s' =>
      match digit c with
      | Some d => digits (10 * acc + d) s'
      | None => None
      end
  end.

Definition nonempty_digits (s : string) : option Z :=
  match s with
  | EmptyString => None
  | _ => digits 0 s
  end.

(** [int(s)] on a string: surrounding whitespace, an optional sign and
    a non-empty run of decimal digits; [None] stands for [ValueError]. *)
Definition int (s : string) : option Z :=
  match strip s with
  | String "+" ds => nonempty_digits ds
  | String "-" ds => Z.opp <$> nonempty_digits ds
  | t => nonempty_digits t
  end.

(** [bool(s)] on a string: true unless [s] is empty. *)
Definition truthy (s : string) : bool :=
  match s with
  | EmptyString => false
  | _ => true
  end.

End PyStr.

(** ** binary64 values, the cells of a [numpy] table *)

Module F64.

Local Open Scope Z_scope.

Definition float : Type := spec_float.

Definition prec : Z := 53.
Definition emax : Z := 1024.

(** The double nearest to an integer. *)
Definition of_Z (z : Z) : float := binary_normalize prec emax z 0 false.

Definition zero : float := S754_zero false.
Definition one : float := of_Z 1.

(** [x == y] on floats (false as soon as one side is NaN). *)
Definition eqb (x y : float) : bool := SFeqb x y.

(** [x != y] *)
Definition neb (x y : float) : bool := negb (eqb x y).

(** [bool(x)], as in [if Ip or Iq]. *)
Definition truthy (x : float) : bool := neb x zero.

(** The literals [1.1] and [0.9]: the quotient of two exactly
    representable integers, rounded to nearest. *)
Definition lit_1_1 : float := SFdiv prec emax (of_Z 11) (of_Z 10).
Definition lit_0_9 : float := SFdiv prec emax (of_Z 9) (of_Z 10).
Definition lit_360 : float := of_Z 360.
Definition lit_neg_360 : float := SFopp (of_Z 360).

End F64.

Abbreviation float := F64.float.

Arguments F64.of_Z : simpl never.
Arguments F64.neb : simpl never.
Arguments F64.truthy : simpl never.

(** ** Exceptions, log records and the two monads *)

Inductive exn : Type :=
  | StopIteration
  | IndexError
  | ValueError
  | AssertionError
  | TypeError
  | AttributeError
  | OverflowError.

Inductive result (A : Type) : Type :=
  | Return (a : A)
  | Raise (e : exn).

Arguments Return {A} a.
Arguments Raise {A} e.

#[global] Instance result_ret : MRet result := fun A a => Return a.

#[global] Instance result_bind : MBind result := fun A B f m =>
  match m with
  | Return a => f a
  | Raise e => Raise e
  end.

Inductive level : Type := INFO | WARNING | ERROR.

(** One constructor per format string passed to [logger]. *)
Inductive message : Type :=
  | Loading (fname : string)
  | ErrorOpening (fname : string)
  | BusesFound (c : nat)
  | LoadsFound (c : nat)
  | GeneratorsFound (c : nat)
  | BranchesFound (c : nat)
  | ConstantCurrentIgnored (Ip Iq : float) (i : string) (idx : nat)
  | ConstantAdmittanceIgnored (Yp Yq : float) (i : string) (idx : nat)
  | LoadNotScaled (i : string) (idx : nat) (scale : float)
  | BusNotFound (i : string)
  | CommaDelimited
  | WhitespaceDelimited
  | NoVersionInfo (version : Z)
  | VersionFound (version : Z)
  | VersionNotSupported (version : Z) (supported : list Z) (default : Z).

Record log_record : Type := Log { lvl : level; msg : message }.

(** A computation that logs and may raise: the records emitted, in
    order, and the outcome. *)
Record L (A : Type) : Type := Run { emitted : list log_record; outcome : result A }.

Arguments Run {A} emitted outcome.
Arguments emitted {A} l.
Arguments outcome {A} l.

#[global] Instance L_ret : MRet L := fun A a => Run [] (Return a).

#[global] Instance L_bind : MBind L := fun A B f m =>
  match m with
  | Run l (Return a) => match f a with Run l' o => Run (l ++ l')%list o end
  | Run l (Raise e) => Run l (Raise e)
  end.

Definition lift {A : Type} (r : result A) : L A := Run [] r.

Definition raise {A : Type} (e : exn) : L A := Run [] (Raise e).

Definition logger (lv : level) (m : message) : L unit := Run [Log lv m] (Return tt).

(** [if b: body] for a body that only logs. *)
Definition when (b : bool) (body : L unit) : L unit :=
  if b then body else mret tt.

(** ** Rows, tables and the bus index table *)

Abbreviation row := (list string).

Abbreviation table := (list (list float)).

(** [zeros((1, n))] *)
Definition zeros (n : nat) : list float := replicate n F64.zero.

(** [r[k]] on a row of the [csv] reader. *)
Definition field (r : row) (k : nat) : result string :=
  match r !! k with
  | Some f => Return f
  | None => Raise IndexError
  end.

(** [t[r, c]] *)
Definition cell (t : table) (r c : nat) : result float :=
  match t !! r with
  | Some line =>
      match line !! c with
      | Some v => Return v
      | None => Raise IndexError
      end
  | None => Raise IndexError
  end.

(** [t[r, c] = v] *)
Definition set_cell (t : table) (r c : nat) (v : float) : result table :=
  match t !! r with
  | Some line =>
      if (c <? length line)%nat
      then Return (<[r := <[c := v]> line]> t)
      else Raise IndexError
  | None => Raise IndexError
  end.

(** [x in l] on integers. *)
Definition py_in (x : Z) (l : list Z) : bool := existsb (Z.eqb x) l.

Definition DEFAULT_VERSION : Z := 30.
Definition SUPPORTED_VERSIONS : list Z := [29; 30; 31; 32]%Z.

(** [int(s)] *)
Definition to_int (s : string) : result Z :=
  match PyStr.int s with
  | Some z => Return z
  | None => Raise ValueError
  end.

(** Storing a Python integer into a float64 cell. *)
Definition store_int (z : Z) : result float :=
  match F64.of_Z z with
  | S754_infinity _ => Raise OverflowError
  | x => Return x
  end.

(** [reader.next()] *)
Definition next (reader : list row) : result (row * list row) :=
  match reader with
  | [] => Raise StopIteration
  | r :: rest => Return (r, rest)
  end.

(** [assert b] *)
Definition assert (b : bool) : result unit :=
  if b then Return tt else Raise AssertionError.

(** The test of every section loop:
    [data[0].split("/")[0].strip() != "0"]. *)
Definition not_terminator (data : row) : result bool :=
  f0 ← field data 0;
  mret (negb (String.eqb (PyStr.strip (PyStr.before_slash f0)) "0")).

(** [_busidx] *)
Definition _busidx (i : string) (busmap : gmap string nat) : L (option nat) :=
  let i := PyStr.strip_quote i in
  match busmap !! i with
  | Some idx => mret (Some idx)
  | None => logger ERROR (BusNotFound i);; mret None
  end.

(** The loop shared by the section readers,

      [while data[0].split("/")[0].strip() != "0":]
      [    body]
      [    data = reader.next()]
      [    c += 1]

    by recursion on the rows the reader still holds.  It returns the
    accumulated value, the count [c] and the reader after the
    terminator row. *)
Fixpoint section_loop {A : Type} (body : row -> nat -> A -> L A)
    (reader : list row) (data : row) (acc : A) (c : nat)
    : L (A * nat * list row) :=
  go ← lift (not_terminator data);
  if (go : bool) then
    acc' ← body data c acc;
    match reader with
    | [] => raise StopIteration
    | data' :: reader' => section_loop body reader' data' acc' (S c)
    end
  else mret (acc, c, reader).

(** The parse result, the dictionary with keys ["baseMVA"], ["bus"],
    ["gen"] and ["branch"]. *)
Record case : Type := Case {
  baseMVA : float;
  bus : table;
  gen : table;
  branch : table
}.

(** An open file, as the lines an iteration from its start yields. *)
Abbreviation file := (list string).

(** What [psse2case] is called on. *)
Inductive casefile : Type :=
  | Dict (ppc : case)
  | Path (name : string)
  | Stream (fd : file).

(** [fd.seek(0)]; [fd] is [None] where [open] failed. *)
Definition seek0 (fd : option file) : result file :=
  match fd with
  | Some f => Return f
  | None => Raise AttributeError
  end.

(** [fd.close()] *)
Definition close (fd : option file) : result unit :=
  match fd with
  | Some _ => Return tt
  | None => Raise AttributeError
  end.

(** A positional argument of a call made by [_parse_file]. *)
Inductive arg : Type :=
  | AReader (reader : list row)
  | ATable (t : table)
  | ABusmap (busmap : gmap string nat).

(** ** The section readers *)

Section Readers.

(** [float(s)] on a string, [None] for [ValueError]. *)
Variable py_float : string -> option float.

(** [csv.reader(fd, delimiter=sep, skipinitialspace=True)], as the
    rows it yields. *)
Variable csv_reader : string -> file -> list row.

(** [open(name, "rb")], [None] where it raises. *)
Variable open_rb : string -> option file.

Definition to_float (s : string) : result float :=
  match py_float s with
  | Some x => Return x
  | None => Raise ValueError
  end.

(** [float(r[k])] *)
Definition float_at (r : row) (k : nat) : result float :=
  f ← field r k; to_float f.

(** [int(r[k])], stored into a table cell. *)
Definition int_at (r : row) (k : nat) : result float :=
  f ← field r k; z ← to_int f; store_int z.

Definition _parse_header (reader : list row) : result (float * list row) :=
  '(h0, reader) ← next reader;
  '(_, reader) ← next reader;
  '(_, reader) ← next reader;
  h00 ← field h0 0;
  assert (String.eqb h00 "0" || String.eqb h00 "1");;
  h01 ← field h0 1;
  baseMVA ← to_float h01;
  mret (baseMVA, reader).

(** The record [bus] built for one row of bus data, [i] being
    [busdata[0]]. *)
Definition bus_record (version : Z) (i : string) (busdata : row)
    : result (list float) :=
  let bus := zeros 13 in
  x ← (z ← to_int i; store_int z); let bus := <[0%nat := x]> bus in
  x ← float_at busdata 3; let bus := <[1%nat := x]> bus in
  let bus := <[2%nat := F64.zero]> bus in
  let bus := <[3%nat := F64.zero]> bus in
  bus ← (if py_in version [29; 30]%Z then
           x ← float_at busdata 4; let bus := <[4%nat := x]> bus in
           x ← float_at busdata 5; let bus := <[5%nat := x]> bus in
           x ← int_at busdata 6; let bus := <[6%nat := x]> bus in
           x ← float_at busdata 8; let bus := <[7%nat := x]> bus in
           x ← float_at busdata 9; let bus := <[8%nat := x]> bus in
           x ← float_at busdata 7; let bus := <[10%nat := x]> bus in
           mret bus
         else if py_in version [31; 32]%Z then
           x ← int_at busdata 4; let bus := <[6%nat := x]> bus in
           x ← float_at busdata 7; let bus := <[7%nat := x]> bus in
           x ← float_at busdata 8; let bus := <[8%nat := x]> bus in
           x ← float_at busdata 5; let bus := <[10%nat := x]> bus in
           mret bus
         else mret bus);
  x ← float_at busdata 2; let bus := <[9%nat := x]> bus in
  let bus := <[11%nat := F64.lit_1_1]> bus in
  let bus := <[12%nat := F64.lit_0_9]> bus in
  mret bus.

(** The body of the loop of [_parse_buses]; the accumulator is
    [(buses, busmap)]. *)
Definition bus_body (version : Z) (busdata : row) (c : nat)
    (acc : table * gmap string nat) : L (table * gmap string nat) :=
  let '(buses, busmap) := acc in
  lift (
    i ← field busdata 0;
    f1 ← field busdata 1;
    let name := PyStr.strip_quote f1 in
    let busmap := <[i := c]> busmap in
    let busmap := <[name := c]> busmap in
    bus ← bus_record version i busdata;
    mret ((buses ++ [bus])%list, busmap)).

Definition _parse_buses (reader : list row) (version : Z)
    : L (table * gmap string nat * list row) :=
  '(busdata, reader) ← lift (next reader);
  '(buses, busmap, c, reader) ←
    section_loop (bus_body version) reader busdata ([], ∅) 0%nat;
  logger INFO (BusesFound c);;
  mret (buses, busmap, reader).

(** The body of the loop of [_parse_loads]; the accumulator is the
    bus table, which the source updates in place. *)
Definition load_body (busmap : gmap string nat) (version : Z)
    (loaddata : row) (c : nat) (bus : table) : L table :=
  f2 ← lift (field loaddata 2);
  let status := PyStr.truthy f2 in
  i ← lift (field loaddata 0);
  idx ← _busidx i busmap;
  match status, idx with
  | true, Some idx =>
      x ← lift (float_at loaddata 5); bus ← lift (set_cell bus idx 2 x);
      x ← lift (float_at loaddata 6); bus ← lift (set_cell bus idx 3 x);
      Ip ← lift (float_at loaddata 7);
      Iq ← lift (float_at loaddata 8);
      when (F64.truthy Ip || F64.truthy Iq)
        (logger WARNING (ConstantCurrentIgnored Ip Iq i idx));;
      Yp ← lift (float_at loaddata 9);
      Yq ← lift (float_at loaddata 10);
      when (F64.truthy Yp || F64.truthy Yq)
        (logger WARNING (ConstantAdmittanceIgnored Yp Yq i idx));;
      (if Z.eqb version 32 then
         scale ← lift (float_at loaddata 12);
         when (F64.neb scale F64.zero || F64.neb scale F64.one)
           (logger WARNING (LoadNotScaled i idx scale))
       else mret tt);;
      mret bus
  | _, _ => mret bus
  end.

Definition _parse_loads (reader : list row) (bus : table)
    (busmap : gmap string nat) (version : Z) : L (table * list row) :=
  '(loaddata, reader) ← lift (next reader);
  '(bus, c, reader) ←
    section_loop (load_body busmap version) reader loaddata bus 0%nat;
  logger INFO (LoadsFound c);;
  mret (bus, reader).

(** The record [gen] built for one row of generator data. *)
Definition gen_record (gendata : row) : result (list float) :=
  let gen := zeros 21 in
  x ← float_at gendata 2; let gen := <[1%nat := x]> gen in
  x ← float_at gendata 3; let gen := <[2%nat := x]> gen in
  x ← float_at gendata 4; let gen := <[3%nat := x]> gen in
  x ← float_at gendata 5; let gen := <[4%nat := x]> gen in
  x ← float_at gendata 6; let gen := <[5%nat := x]> gen in
  x ← float_at gendata 8; let gen := <[6%nat := x]> gen in
  x ← float_at gendata 14; let gen := <[7%nat := x]> gen in
  x ← float_at gendata 16; let gen := <[8%nat := x]> gen in
  x ← float_at gendata 17; let gen := <[9%nat := x]> gen in
  mret gen.

Definition gen_body (busmap : gmap string nat) (gendata : row) (c : nat)
    (generators : table) : L table :=
  i ← lift (field gendata 0);
  idx ← _busidx i busmap;
  match idx with
  | Some _ =>
      gen ← lift (gen_record gendata);
      mret (generators ++ [gen])%list
  | None => mret generators
  end.

Definition _parse_generators (reader : list row)
    (busmap : gmap string nat) : L (table * list row) :=
  '(gendata, reader) ← lift (next reader);
  '(generators, c, reader) ←
    section_loop (gen_body busmap) reader gendata [] 0%nat;
  logger INFO (GeneratorsFound c);;
  mret (generators, reader).

(** The record [brch] built for one row of branch data whose two
    buses were found at rows [fbus] and [tbus] of [bus]. *)
Definition branch_record (bus : table) (fbus tbus : nat) (brchdata : row)
    : result (list float) :=
  let brch := zeros 13 in
  x ← cell bus fbus 0; let brch := <[0%nat := x]> brch in
  x ← cell bus tbus 1; let brch := <[1%nat := x]> brch in
  x ← float_at brchdata 3; let brch := <[2%nat := x]> brch in
  x ← float_at brchdata 4; let brch := <[3%nat := x]> brch in
  x ← float_at brchdata 5; let brch := <[4%nat := x]> brch in
  x ← float_at brchdata 6; let brch := <[5%nat := x]> brch in
  x ← float_at brchdata 7; let brch := <[6%nat := x]> brch in
  x ← float_at brchdata 8; let brch := <[7%nat := x]> brch in
  x ← float_at brchdata 13; let brch := <[10%nat := x]> brch in
  let brch := <[11%nat := F64.lit_neg_360]> brch in
  let brch := <[12%nat := F64.lit_360]> brch in
  mret brch.

Definition branch_body (bus : table) (busmap : gmap string nat)
    (brchdata : row) (c : nat) (branches : table) : L table :=
  f0 ← lift (field brchdata 0);
  fbus ← _busidx f0 busmap;
  f1 ← lift (field brchdata 1);
  tbus ← _busidx f1 busmap;
  match fbus, tbus with
  | Some fbus, Some tbus =>
      brch ← lift (branch_record bus fbus tbus brchdata);
      mret (branches ++ [brch])%list
  | _, _ => mret branches
  end.

Definition _parse_nontransformer_branches (reader : list row)
    (bus : table) (busmap : gmap string nat) : L (table * list row) :=
  '(brchdata, reader) ← lift (next reader);
  '(branches, c, reader) ←
    section_loop (branch_body bus busmap) reader brchdata [] 0%nat;
  logger INFO (BranchesFound c);;
  mret (branches, reader).

(** [pass] *)
Definition _parse_transformers (reader : list row) (branch : table)
    (version : option Z) (busmap : gmap string nat) : L unit :=
  mret tt.

(** [pass] *)
Definition _parse_shunt (reader : list row) : L unit :=
  mret tt.

(** A call [_parse_generators(...)] with the given positional
    arguments: the signature is [(reader, busmap)], and a call that
    does not fit it raises [TypeError] before the body runs. *)
Definition call_parse_generators (args : list arg) : L (table * list row) :=
  match args with
  | [AReader reader; ABusmap busmap] => _parse_generators reader busmap
  | _ => raise TypeError
  end.

(** A call [_parse_shunt(...)]: the signature is [(reader)]. *)
Definition call_parse_shunt (args : list arg) : L unit :=
  match args with
  | [AReader reader] => _parse_shunt reader
  | _ => raise TypeError
  end.

Definition _delimiter (fd : option file) : L string :=
  f ← lift (seek0 fd);
  line ← lift (match f with
               | [] => Raise StopIteration
               | line :: _ => Return line
               end);
  let header0 := PyStr.before_slash line in
  if PyStr.contains "," header0 then
    logger INFO CommaDelimited;;
    mret ","
  else
    logger INFO WhitespaceDelimited;;
    mret " ".

Definition _version (fd : option file) (delimiter : string) : L Z :=
  f ← lift (seek0 fd);
  let reader := csv_reader delimiter f in
  '(h0, _) ← lift (next reader);
  if (length h0 <? 3)%nat then
    let version := DEFAULT_VERSION in
    logger INFO (NoVersionInfo version);;
    mret version
  else
    h02 ← lift (field h0 2);
    version ← lift (if PyStr.contains "/" h02
                    then to_int (PyStr.strip (PyStr.before_slash h02))
                    else to_int h02);
    logger INFO (VersionFound version);;
    if negb (py_in version SUPPORTED_VERSIONS) then
      logger WARNING
        (VersionNotSupported version SUPPORTED_VERSIONS DEFAULT_VERSION);;
      mret DEFAULT_VERSION
    else mret version.

(** [_parse_file] is given in three parts.  The first runs from its
    start to the shunt call that precedes the generators. *)
Definition sections_to_loads (fd : option file) (version : option Z)
    (delimiter : option string)
    : L (float * table * gmap string nat * Z * list row) :=
  sep ← match delimiter with
        | None => _delimiter fd
        | Some d => mret d
        end;
  rev ← match version with
        | None => _version fd sep
        | Some v => mret v
        end;
  f ← lift (seek0 fd);
  let reader := csv_reader sep f in
  '(baseMVA, reader) ← lift (_parse_header reader);
  '(busdata, busmap, reader) ← _parse_buses reader rev;
  '(busdata, reader) ← _parse_loads reader busdata busmap rev;
  (if py_in rev [31; 32]%Z
   then call_parse_shunt [AReader reader]
   else mret tt);;
  mret (baseMVA, busdata, busmap, rev, reader).

(** The last part runs from the branch reader to the [return]. *)
Definition sections_from_branches (reader : list row) (busdata : table)
    (busmap : gmap string nat) (version : option Z) (rev : Z)
    (baseMVA : float) (gendata : table) : L case :=
  '(branchdata, reader) ←
    _parse_nontransformer_branches reader busdata busmap;
  _parse_transformers reader branchdata version busmap;;
  (if py_in rev [29; 30]%Z
   then call_parse_shunt [AReader reader; ATable busdata]
   else mret tt);;
  mret (Case baseMVA busdata gendata branchdata).

(** In between, [gendata = _parse_generators(reader)]. *)
Definition _parse_file (fd : option file) (version : option Z)
    (delimiter : option string) : L case :=
  '(baseMVA, busdata, busmap, rev, reader) ←
    sections_to_loads fd version delimiter;
  '(gendata, reader) ← call_parse_generators [AReader reader];
  sections_from_branches reader busdata busmap version rev baseMVA gendata.

(** [psse2case]; the result is [None] where the source returns
    [None].  For a path, the [except] clause logs and leaves a
    [return None] pending while the [finally] clause runs; its test
    [file is not None] is about the built-in type [file] and always
    holds, so [_parse_file(fd, ...)] and [fd.close()] run whether or
    not [open] succeeded. *)
Definition psse2case (casefile : casefile) (version : option Z)
    (delimiter : option string) : L (option case) :=
  match casefile with
  | Dict ppc => mret (Some ppc)
  | Path name =>
      let fname := PyStr.basename name in
      logger INFO (Loading fname);;
      let fd := open_rb name in
      match fd with
      | Some _ => mret tt
      | None => logger ERROR (ErrorOpening fname)
      end;;
      ppc ← _parse_file fd version delimiter;
      lift (close fd);;
      match fd with
      | Some _ => mret (Some ppc)
      | None => mret None
      end
  | Stream fd =>
      ppc ← _parse_file (Some fd) version delimiter;
      mret (Some ppc)
  end.

End Readers.

(** ** The command line

    [main], from the options and arguments that [parser.parse_args()]
    returns to the call of [savemat] or the exception that ends the
    run.  An option holding a string is [None] where it was not given. *)

Record options : Type := Options {
  opt_output : option string;
  opt_verbose : bool;
  opt_debug : bool;
  opt_revision : option string;
  opt_delimiter : option string
}.

(** The level passed to [logging.basicConfig]. *)
Inductive threshold : Type := DEBUG_LEVEL | INFO_LEVEL | WARNING_LEVEL.

(** What [main] lets the user see: the records logged by [psse2case],
    its own warning about the delimiter, and the help text. *)
Inductive main_event : Type :=
  | Logged (r : log_record)
  | InvalidDelimiter (s : string)
  | PrintHelp.

(** How [main] ends: [sys.exit(code)], an exception that nothing
    catches, or the call [savemat(outfile, {"mpc": mpc}, ...)]. *)
Inductive main_end : Type :=
  | SysExit (code : Z)
  | Uncaught (e : exn)
  | Savemat (outfile : string) (mpc : option case).

Record main_run : Type := MainRun {
  level_set : threshold;
  events : list main_event;
  ending : main_end
}.

(** [if o:] on an option that is [None] or a string. *)
Definition given (o : option string) : option string :=
  match o with
  | Some (String _ _ as s) => Some s
  | _ => None
  end.

Section CommandLine.

Variable py_float : string -> option float.
Variable csv_reader : string -> file -> list row.
Variable open_rb : string -> option file.

(** [os.path.splitext] *)
Variable splitext : string -> string * string.

Definition main (options : options) (args : list string) : main_run :=
  let level := if opt_verbose options then INFO_LEVEL else WARNING_LEVEL in
  let level := if opt_debug options then DEBUG_LEVEL else level in
  match (match given (opt_revision options) with
         | Some r => z ← to_int r; mret (Some z)
         | None => mret None
         end) with
  | Raise e => MainRun level [] (Uncaught e)
  | Return revision =>
      let '(warned, delimiter) :=
        match given (opt_delimiter options) with
        | Some d =>
            if String.eqb d "comma" then ([], Some ",")
            else if String.eqb d "space" then ([], Some " ")
            else ([InvalidDelimiter d], None)
        | None => ([], None)
        end in
      match args with
      | [infile] =>
          let outfile :=
            match given (opt_output options) with
            | Some o => o
            | None => (splitext infile).1 ++ ".mat"
            end in
          let run := psse2case py_float csv_reader open_rb (Path infile)
                       revision delimiter in
          MainRun level (warned ++ (Logged <$> emitted run))%list
            match outcome run with
            | Return ppc => Savemat outfile ppc
            | Raise e => Uncaught e
            end
      | _ => MainRun level (warned ++ [PrintHelp])%list (SysExit 1)
      end
  end.

End CommandLine.

(** ** A small instance of the library functions

    Enough of [float] and of [csv.reader] to run the readers on files
    whose numbers are integer literals and whose fields hold neither
    quotes nor line breaks. *)

Module Sample.

(** [float(s)] where [s] is an integer literal. *)
Definition float_of_literal (s : string) : option float :=
  F64.of_Z <$> PyStr.int s.

Fixpoint fields (d : ascii) (cur : string) (s : string) : list string :=
  match s with
  | EmptyString => [cur]
  | String c s' =>
      if Ascii.eqb c d then cur :: fields d EmptyString s'
      else fields d (cur ++ String c EmptyString) s'
  end.

(** One row per line, split at the delimiter, blanks after a
    delimiter skipped; an empty line yields the empty row. *)
Definition split_line (d : ascii) (line : string) : row :=
  match line with
  | EmptyString => []
  | _ => PyStr.lstrip (Ascii.eqb " ") <$> fields d EmptyString line
  end.

Definition csv (sep : string) (fd : file) : list row :=
  match sep with
  | String d EmptyString => split_line d <$> fd
  | _ => []
  end.

(** A file system holding no file at all. *)
Definition no_file (name : string) : option file := None.

(** The file of the round-trip scenario, in revision 30 layout: three
    header lines, buses 1 and 2, one load at bus 2 with PL=10 and
    QL=5, no generator, one branch from 1 to 2. *)
Definition round_trip : file :=
  [ "1,100,30";
    "title";
    "title";
    "1,'BUS1',138,3,0,0,1,1,1,0,1";
    "2,'BUS2',138,1,0,0,1,1,1,0,1";
    "0 / END OF BUS DATA";
    "2,1,1,1,1,10,5,0,0,0,0,1";
    "0 / END OF LOAD DATA";
    "0 / END OF GENERATOR DATA";
    "1,2,1,0,1,0,250,250,250,0,0,0,0,1,0,1,1";
    "0 / END OF BRANCH DATA" ].

(** The rows of that file, section by section. *)
Definition header_rows : list row :=
  [ ["1"; "100"; "30"]; ["title"]; ["title"] ].

Definition bus_rows : list row :=
  [ ["1"; "'BUS1'"; "138"; "3"; "0"; "0"; "1"; "1"; "1"; "0"; "1"];
    ["2"; "'BUS2'"; "138"; "1"; "0"; "0"; "1"; "1"; "1"; "0"; "1"] ].

Definition load_rows : list row :=
  [ ["2"; "1"; "1"; "1"; "1"; "10"; "5"; "0"; "0"; "0"; "0"; "1"] ].

(** The bus table and the bus index table read from [bus_rows]. *)
Definition bus_table : table :=
  [ [F64.of_Z 1; F64.of_Z 3; F64.zero; F64.zero; F64.zero; F64.zero;
     F64.of_Z 1; F64.of_Z 1; F64.zero; F64.of_Z 138; F64.of_Z 1;
     F64.lit_1_1; F64.lit_0_9];
    [F64.of_Z 2; F64.of_Z 1; F64.zero; F64.zero; F64.zero; F64.zero;
     F64.of_Z 1; F64.of_Z 1; F64.zero; F64.of_Z 138; F64.of_Z 1;
     F64.lit_1_1; F64.lit_0_9] ].

Definition bus_index : gmap string nat :=
  <["BUS2" := 1%nat]> (<["2" := 1%nat]>
    (<["BUS1" := 0%nat]> (<["1" := 0%nat]> ∅))).

(** The load row of the file with its status field set to ["0"], and
    a revision 32 load row whose scale field is ["1"]. *)
Definition load_row_out_of_service : row :=
  ["2"; "1"; "0"; "1"; "1"; "10"; "5"; "0"; "0"; "0"; "0"; "1"].

Definition load_row_scale_one : row :=
  ["2"; "1"; "1"; "1"; "1"; "10"; "5"; "0"; "0"; "0"; "0"; "1"; "1"].

(** A generator at bus 2 that is out of service (STAT, column 14, is
    0), with PG=40, QG=5, QT=30, QB=-30, VS=1, MBASE=100, PT=80 and
    PB=10. *)
Definition gen_row_out_of_service : row :=
  ["2"; "1"; "40"; "5"; "30"; "-30"; "1"; "0"; "100"; "0"; "1"; "0"; "0";
   "1"; "0"; "100"; "80"; "10"].

(** A branch from bus 2 to bus 1. *)
Definition branch_row_2_1 : row :=
  ["2"; "1"; "1"; "0"; "1"; "0"; "250"; "250"; "250"; "0"; "0"; "0";
   "0"; "1"; "0"; "1"; "1"].

Definition branch_rows : list row :=
  [ ["1"; "2"; "1"; "0"; "1"; "0"; "250"; "250"; "250"; "0"; "0"; "0";
     "0"; "1"; "0"; "1"; "1"] ].

Definition round_trip_rows : list row :=
  (header_rows ++
   bus_rows ++ [["0 / END OF BUS DATA"]] ++
   load_rows ++ [["0 / END OF LOAD DATA"]] ++
   [["0 / END OF GENERATOR DATA"]] ++
   branch_rows ++ [["0 / END OF BRANCH DATA"]])%list.

End Sample.

(** ** Further inputs *)

Module Cases.

(** Two buses bearing the same name. *)
Definition twin_bus_rows : list row :=
  [ ["1"; "'BUS'"; "138"; "3"; "0"; "0"; "1"; "1"; "1"; "0"; "1"];
    ["2"; "'BUS'"; "138"; "1"; "0"; "0"; "1"; "1"; "1"; "0"; "1"] ].

Definition twin_bus_index : gmap string nat :=
  <["BUS" := 1%nat]> (<["2" := 1%nat]>
    (<["BUS" := 0%nat]> (<["1" := 0%nat]> ∅))).

(** Two loads in service at bus 2, of 10 and 5, then of 7 and 3. *)
Definition two_load_rows : list row :=
  [ ["2"; "1"; "1"; "1"; "1"; "10"; "5"; "0"; "0"; "0"; "0"; "1"];
    ["2"; "2"; "1"; "1"; "1"; "7"; "3"; "0"; "0"; "0"; "0"; "1"] ].

(** [Sample.bus_table] once the load of 10 and 5 at bus 2 is applied. *)
Definition bus_table_loaded : table :=
  <[1%nat := <[3%nat := F64.of_Z 5]> (<[2%nat := F64.of_Z 10]>
               (Sample.bus_table !!! 1%nat))]> Sample.bus_table.

(** [os.path.splitext] on names that hold no dot. *)
Definition no_extension (name : string) : string * string :=
  (name, EmptyString).

Definition no_options : options :=
  Options None false false None None.

End Cases.

(** ** Vocabulary of the statements *)

(** A row on which the loop test holds, and one on which it fails. *)
Definition data_row (r : row) : Prop := not_terminator r = Return true.
Definition terminator_row (r : row) : Prop := not_terminator r = Return false.

(** The loop bodies run on the rows of a block, one after the other. *)
Fixpoint run_rows {A : Type} (body : row -> nat -> A -> L A)
    (rows : list row) (acc : A) (c : nat) : L (A * nat) :=
  match rows with
  | [] => mret (acc, c)
  | r :: rows' => acc' ← body r c acc; run_rows body rows' acc' (S c)
  end.

(** [data = reader.next()] followed by the loop. *)
Definition enter {A : Type} (body : row -> nat -> A -> L A)
    (reader : list row) (acc : A) (c : nat) : L (A * nat * list row) :=
  '(data, reader) ← lift (next reader);
  section_loop body reader data acc c.

Section Entries.

Variable py_float : string -> option float.

(** What one row of bus data contributes: the two keys entered in
    [busmap] and the record appended to [buses]. *)
Definition bus_entry (version : Z) (busdata : row)
    : result (string * string * list float) :=
  i ← field busdata 0;
  f1 ← field busdata 1;
  bus ← bus_record py_float version i busdata;
  mret (i, PyStr.strip_quote f1, bus).

(** [busmap] after the entries [es] were registered from index [c]. *)
Fixpoint register (c : nat) (es : list (string * string * list float))
    (m : gmap string nat) : gmap string nat :=
  match es with
  | [] => m
  | (i, name, _) :: es' => register (S c) es' (<[name := c]> (<[i := c]> m))
  end.

Definition keys (es : list (string * string * list float)) : list string :=
  flat_map (fun e => [e.1.1; e.1.2]) es.

End Entries.

(** [n] blanks. *)
Fixpoint blanks (n : nat) : string :=
  match n with
  | O => EmptyString
  | S n' => String " " (blanks n')
  end.

(** The integer the version sniffer reads off the third header field:
    what precedes a ["/"], stripped, where there is one, the whole
    field otherwise. *)
Definition revision_field_value (h02 : string) : option Z :=
  if PyStr.contains "/" h02
  then PyStr.int (PyStr.strip (PyStr.before_slash h02))
  else PyStr.int h02.

(** The warnings a load row that is applied gives rise to. *)
Definition current_warning (Ip Iq : float) (i : string) (idx : nat)
    : list log_record :=
  if F64.truthy Ip || F64.truthy Iq
  then [Log WARNING (ConstantCurrentIgnored Ip Iq i idx)] else [].

Definition admittance_warning (Yp Yq : float) (i : string) (idx : nat)
    : list log_record :=
  if F64.truthy Yp || F64.truthy Yq
  then [Log WARNING (ConstantAdmittanceIgnored Yp Yq i idx)] else [].

(** Whether [_busidx] finds the bus named by the first field of a row. *)
Definition bus_found (busmap : gmap string nat) (r : row) : bool :=
  match r with
  | i :: _ => bool_decide (is_Some (busmap !! PyStr.strip_quote i))
  | [] => false
  end.

(** The rows of [bus] that [_busidx] finds for the two ends of a row
    of branch data, if it finds both. *)
Definition branch_ends (busmap : gmap string nat) (r : row)
    : option (nat * nat) :=
  match r with
  | f0 :: f1 :: _ =>
      match busmap !! PyStr.strip_quote f0, busmap !! PyStr.strip_quote f1 with
      | Some fbus, Some tbus => Some (fbus, tbus)
      | _, _ => None
      end
  | _ => None
  end.

(** The rows of a branch section both of whose ends are found, each
    with its ends. *)
Definition resolved_branches (busmap : gmap string nat) (rows : list row)
    : list (nat * nat * row) :=
  omap (fun r => (fun ends => (ends, r)) <$> branch_ends busmap r) rows.

(** [float] reads a run of decimal digits as the integer it denotes. *)
Definition reads_numerals (py_float : string -> option float) : Prop :=
  forall s z,
    PyStr.nonempty_digits s = Some z -> py_float s = Some (F64.of_Z z).

(** The two keys a row of bus data is registered under. *)
Definition row_keys (r : row) : list string :=
  match r with
  | i :: f1 :: _ => [i; PyStr.strip_quote f1]
  | _ => []
  end.

(** The fields of a bus record that no revision reads from the file. *)
Definition bus_defaults (rec : list float) : Prop :=
  length rec = 13%nat /\
  rec !! 2%nat = Some F64.zero /\
  rec !! 3%nat = Some F64.zero /\
  rec !! 11%nat = Some F64.lit_1_1 /\
  rec !! 12%nat = Some F64.lit_0_9.

(** Two bus tables with the same shape that agree outside the load
    columns 2 and 3. *)
Definition same_but_loads (t t' : table) : Prop :=
  Forall2 (fun l l' : list float =>
             length l' = length l /\
             forall c, c <> 2%nat -> c <> 3%nat -> l' !! c = l !! c) t t'.

(** The fields of a generator record that the reader never assigns. *)
Definition gen_unassigned (g : list float) : Prop :=
  length g = 21%nat /\
  g !! 0%nat = Some F64.zero /\
  forall k, (10 <= k < 21)%nat -> g !! k = Some F64.zero.

(** The fields of a branch record that are not read from the file. *)
Definition branch_defaults (brch : list float) : Prop :=
  length brch = 13%nat /\
  brch !! 8%nat = Some F64.zero /\
  brch !! 9%nat = Some F64.zero /\
  brch !! 11%nat = Some F64.lit_neg_360 /\
  brch !! 12%nat = Some F64.lit_360.

(** A row of load data all of whose fields used for the revision can
    be read. *)
Definition load_row_readable (py_float : string -> option float)
    (version : Z) (r : row) : Prop :=
  is_Some (r !! 2%nat) /\
  (forall k, k ∈ [5; 6; 7; 8; 9; 10]%nat ->
     exists x, float_at py_float r k = Return x) /\
  (version = 32%Z -> exists x, float_at py_float r 12 = Return x).

(** ** Running the monads *)

Lemma L_bind_Return {A B : Type} (m : L A) (k : A -> L B) (a : A) :
  outcome m = Return a ->
  m ≫= k = Run (emitted m ++ emitted (k a))%list (outcome (k a)).
Proof.
  destruct m as [l o]. simpl. intros ->. unfold mbind, L_bind.
  destruct (k a); reflexivity.
Qed.

Lemma L_bind_Raise {A B : Type} (m : L A) (k : A -> L B) (e : exn) :
  outcome m = Raise e -> m ≫= k = Run (emitted m) (Raise e).
Proof.
  destruct m as [l o]. simpl. intros ->. reflexivity.
Qed.

Lemma L_bind_run {A B : Type} (l : list log_record) (a : A) (k : A -> L B) :
  Run l (Return a) ≫= k = Run (l ++ emitted (k a))%list (outcome (k a)).
Proof. apply L_bind_Return. reflexivity. Qed.

Lemma L_bind_lift {A B : Type} (a : A) (k : A -> L B) :
  lift (Return a) ≫= k = k a.
Proof. unfold lift, mbind, L_bind. destruct (k a); reflexivity. Qed.

Lemma L_bind_mret {A B : Type} (a : A) (k : A -> L B) : mret a ≫= k = k a.
Proof. apply (L_bind_lift a k). Qed.

Lemma L_bind_lift_Raise {A B : Type} (e : exn) (k : A -> L B) :
  lift (Raise e) ≫= k = Run [] (Raise e).
Proof. reflexivity. Qed.

Lemma outcome_bind_Return {A B : Type} (m : L A) (k : A -> L B) (a : A) :
  outcome m = Return a -> outcome (m ≫= k) = outcome (k a).
Proof. intros H. rewrite (L_bind_Return m k a H). reflexivity. Qed.

Lemma outcome_bind_Raise {A B : Type} (m : L A) (k : A -> L B) (e : exn) :
  outcome m = Raise e -> outcome (m ≫= k) = Raise e.
Proof. intros H. rewrite (L_bind_Raise m k e H). reflexivity. Qed.

(** ** The section loop on a block of data rows *)

Lemma section_loop_eq {A : Type} (body : row -> nat -> A -> L A)
    reader data acc c :
  section_loop body reader data acc c =
  (go ← lift (not_terminator data);
   if (go : bool) then
     acc' ← body data c acc;
     enter body reader acc' (S c)
   else mret (acc, c, reader)).
Proof.
  destruct reader as [|data' reader']; simpl;
    destruct (not_terminator data) as [[|]|e]; try reflexivity;
    destruct (body data c acc) as [l [acc'|e]]; try reflexivity.
  rewrite !L_bind_run. cbv beta. unfold enter. simpl next.
  rewrite L_bind_lift. reflexivity.
Qed.

Lemma enter_rows {A : Type} (body : row -> nat -> A -> L A)
    (term : row) (rest : list row) :
  terminator_row term ->
  forall rows acc c,
    Forall data_row rows ->
    enter body (rows ++ term :: rest)%list acc c =
    ('(acc', c') ← run_rows body rows acc c; mret (acc', c', rest)).
Proof.
  intros Hterm rows. induction rows as [|r rows IH]; intros acc c Hrows.
  - unfold enter. simpl next. rewrite L_bind_lift.
    rewrite section_loop_eq, Hterm. reflexivity.
  - apply Forall_cons in Hrows as [Hr Hrows].
    unfold enter at 1. simpl next. rewrite L_bind_lift.
    rewrite section_loop_eq, Hr, L_bind_lift.
    cbn [run_rows].
    destruct (body r c acc) as [l [acc'|e]]; [|reflexivity].
    rewrite !L_bind_run. rewrite (IH acc' (S c) Hrows).
    destruct (run_rows body rows acc' (S c)) as [l' [[acc'' c'']|e']];
      simpl; rewrite ?app_nil_r; reflexivity.
Qed.

Lemma next_then_loop {A B : Type} (body : row -> nat -> A -> L A)
    (reader : list row) (acc : A) (c : nat) (k : A * nat * list row -> L B) :
  (lift (next reader) ≫= fun '(data, reader') =>
     section_loop body reader' data acc c ≫= k) =
  enter body reader acc c ≫= k.
Proof.
  unfold enter. destruct reader as [|data reader']; [reflexivity|].
  simpl next. rewrite !L_bind_lift. reflexivity.
Qed.

(** ** The bus section *)

Section BusSection.

Variable py_float : string -> option float.

Lemma bus_body_entry version busdata c buses busmap i name rec :
  bus_entry py_float version busdata = Return (i, name, rec) ->
  bus_body py_float version busdata c (buses, busmap) =
  Run [] (Return ((buses ++ [rec])%list, <[name := c]> (<[i := c]> busmap))).
Proof.
  unfold bus_entry, bus_body, lift.
  destruct (field busdata 0) as [i'|e]; simpl; [|discriminate].
  destruct (field busdata 1) as [f1|e]; simpl; [|discriminate].
  destruct (bus_record py_float version i' busdata) as [bus|e]; simpl;
    [|discriminate].
  intros H. injection H as -> <- ->. reflexivity.
Qed.

Lemma run_rows_buses version rows entries :
  Forall2 (fun r e => bus_entry py_float version r = Return e) rows entries ->
  forall buses busmap c,
    run_rows (bus_body py_float version) rows (buses, busmap) c =
    Run [] (Return ((buses ++ map snd entries)%list,
                    register c entries busmap,
                    (c + length rows)%nat)).
Proof.
  induction 1 as [|r [[i name] rec] rows entries Hr _ IH];
    intros buses busmap c; cbn [run_rows].
  - simpl. rewrite app_nil_r, Nat.add_0_r. reflexivity.
  - rewrite (bus_body_entry _ _ _ _ _ _ _ _ Hr), L_bind_run, IH. simpl.
    rewrite <- app_assoc. simpl. do 3 f_equal. lia.
Qed.

Lemma register_other key es :
  key ∉ keys es ->
  forall c m, register c es m !! key = m !! key.
Proof.
  induction es as [|[[i name] rec] es IH]; intros Hkey c m; simpl.
  - reflexivity.
  - unfold keys in Hkey. simpl in Hkey.
    apply not_elem_of_cons in Hkey as [Hi Hkey].
    apply not_elem_of_cons in Hkey as [Hname Hkey].
    rewrite (IH Hkey).
    rewrite lookup_insert_ne by congruence.
    rewrite lookup_insert_ne by congruence.
    reflexivity.
Qed.

Lemma register_lookup es :
  NoDup (keys es) ->
  forall c m k i name rec,
    es !! k = Some (i, name, rec) ->
    register c es m !! i = Some (c + k)%nat /\
    register c es m !! name = Some (c + k)%nat.
Proof.
  induction es as [|[[i0 name0] rec0] es IH]; intros Hnd c m k i name rec Hk.
  - discriminate.
  - unfold keys in Hnd. simpl in Hnd.
    apply NoDup_cons in Hnd as [Hi0 Hnd].
    apply NoDup_cons in Hnd as [Hname0 Hnd].
    apply not_elem_of_cons in Hi0 as [Hne Hi0].
    destruct k as [|k]; simpl in Hk.
    + injection Hk as -> -> ->. simpl.
      rewrite !register_other by assumption.
      rewrite Nat.add_0_r. split.
      * rewrite lookup_insert_ne by congruence. apply lookup_insert_eq.
      * apply lookup_insert_eq.
    + simpl. destruct (IH Hnd (S c) (<[name0:=c]> (<[i0:=c]> m)) k i name rec Hk)
        as [H1 H2].
      rewrite H1, H2. split; f_equal; lia.
Qed.

Lemma register_size es :
  NoDup (keys es) ->
  forall c m,
    (forall key, key ∈ keys es -> m !! key = None) ->
    size (register c es m) = (size m + 2 * length es)%nat.
Proof.
  induction es as [|[[i name] rec] es IH]; intros Hnd c m Hfresh; simpl.
  - lia.
  - unfold keys in Hnd, Hfresh. simpl in Hnd, Hfresh.
    apply NoDup_cons in Hnd as [Hi Hnd].
    apply NoDup_cons in Hnd as [Hname Hnd].
    apply not_elem_of_cons in Hi as [Hne Hi].
    rewrite IH.
    + rewrite map_size_insert_None.
      * rewrite map_size_insert_None by (apply Hfresh; left).
        lia.
      * rewrite lookup_insert_ne by congruence.
        apply Hfresh. right. left.
    + exact Hnd.
    + intros key Hkey.
      rewrite lookup_insert_ne by (intros ->; contradiction).
      rewrite lookup_insert_ne by (intros ->; contradiction).
      apply Hfresh. right. right. exact Hkey.
Qed.

Lemma register_size_le es :
  forall c m, (size (register c es m) <= size m + 2 * length es)%nat.
Proof.
  induction es as [|[[i name] rec] es IH]; intros c m; simpl.
  - lia.
  - specialize (IH (S c) (<[name:=c]> (<[i:=c]> m))).
    rewrite (map_size_insert name), (map_size_insert i) in IH.
    destruct (<[i:=c]> m !! name), (m !! i); unfold id in IH; lia.
Qed.

(** C6, as amended.  A bus section of N data rows, each of which
    converts, followed by a terminator row yields a bus table holding
    the N records in input order, and logs the count N.  Where the 2N
    keys (the id and the quote-stripped name of every bus) are pairwise
    distinct, the bus index table has exactly 2N entries, the id and
    the name of the k-th bus both mapping to k; in general it has at
    most 2N entries. *)
Theorem bus_section_table version rows term rest entries :
  Forall data_row rows ->
  terminator_row term ->
  Forall2 (fun r e => bus_entry py_float version r = Return e) rows entries ->
  exists buses busmap,
    _parse_buses py_float (rows ++ term :: rest)%list version =
      Run [Log INFO (BusesFound (length rows))]
          (Return (buses, busmap, rest)) /\
    length buses = length rows /\
    buses = map snd entries /\
    (size busmap <= 2 * length rows)%nat /\
    (NoDup (keys entries) ->
     size busmap = (2 * length rows)%nat /\
     forall k i name rec,
       entries !! k = Some (i, name, rec) ->
       busmap !! i = Some k /\ busmap !! name = Some k).
Proof.
  intros Hrows Hterm Hentries.
  exists (map snd entries), (register 0 entries ∅).
  pose proof (Forall2_length _ _ _ Hentries) as Hlen.
  split; [|split; [|split; [|split]]].
  - unfold _parse_buses. rewrite next_then_loop.
    rewrite (enter_rows _ _ _ Hterm _ _ _ Hrows).
    rewrite (run_rows_buses _ _ _ Hentries). reflexivity.
  - rewrite length_map. symmetry. exact Hlen.
  - reflexivity.
  - pose proof (register_size_le entries 0 ∅) as H.
    rewrite map_size_empty in H. lia.
  - intros Hnd. split.
    + rewrite register_size; [rewrite map_size_empty; lia | exact Hnd |].
      intros key _. apply lookup_empty.
    + intros k i name rec Hk.
      apply (register_lookup _ Hnd 0 ∅ k i name rec Hk).
Qed.

End BusSection.

(** The hypotheses of [bus_section_table] hold of the two bus rows of
    the round-trip file. *)
Lemma bus_section_table_witness :
  exists buses busmap,
    _parse_buses Sample.float_of_literal
      (Sample.bus_rows ++ [["0 / END OF BUS DATA"]])%list 30 =
      Run [Log INFO (BusesFound 2)] (Return (buses, busmap, [])) /\
    length buses = 2%nat /\
    size busmap = 4%nat /\
    busmap !! "1" = Some 0%nat /\ busmap !! "BUS1" = Some 0%nat /\
    busmap !! "2" = Some 1%nat /\ busmap !! "BUS2" = Some 1%nat.
Proof.
  assert (Hrows : Forall data_row Sample.bus_rows) by (repeat constructor).
  assert (Hterm : terminator_row ["0 / END OF BUS DATA"]) by reflexivity.
  eassert (Hent : Forall2
             (fun r e => bus_entry Sample.float_of_literal 30 r = Return e)
             Sample.bus_rows _).
  { constructor; [vm_compute; reflexivity|].
    constructor; [vm_compute; reflexivity|].
    constructor. }
  destruct (bus_section_table Sample.float_of_literal 30 Sample.bus_rows
              ["0 / END OF BUS DATA"] [] _ Hrows Hterm Hent)
    as (buses & busmap & Hrun & Hlen & _ & _ & Hmap).
  destruct Hmap as [Hsize Hlook].
  - apply (bool_decide_unpack _). vm_compute. exact I.
  - exists buses, busmap.
    pose proof (Hlook 0%nat _ _ _ eq_refl) as [? ?].
    pose proof (Hlook 1%nat _ _ _ eq_refl) as [? ?].
    repeat split; assumption.
Defined.

(** C6 as stated fails where keys collide: two buses bearing the same
    name leave three entries in the bus index table, not four. *)
Lemma bus_section_table_counterexample :
  exists buses busmap,
    outcome (_parse_buses Sample.float_of_literal
               [ ["1"; "'BUS'"; "138"; "3"; "0"; "0"; "1"; "1"; "1"; "0"; "1"];
                 ["2"; "'BUS'"; "138"; "1"; "0"; "0"; "1"; "1"; "1"; "0"; "1"];
                 ["0"] ] 30) = Return (buses, busmap, []) /\
    length buses = 2%nat /\
    size busmap = 3%nat /\
    busmap !! "BUS" = Some 1%nat.
Proof.
  eexists _, _. split; [vm_compute; reflexivity|].
  split; [reflexivity|]. split; vm_compute; reflexivity.
Qed.

(** ** The version sniffer *)

Lemma append_nil (b : string) : EmptyString ++ b = b.
Proof. reflexivity. Qed.

Lemma append_cons (x : ascii) (a b : string) :
  String x a ++ b = String x (a ++ b).
Proof. reflexivity. Qed.

Lemma string_app_assoc (a b c : string) : (a ++ b) ++ c = a ++ b ++ c.
Proof.
  induction a as [|x a IH]; rewrite ?append_nil, ?append_cons;
    [reflexivity | rewrite IH; reflexivity].
Qed.

Lemma contains_slash_app (a c : string) :
  PyStr.contains "/" (a ++ String "/" c) = true.
Proof.
  induction a as [|x a IH]; rewrite ?append_nil, ?append_cons; simpl.
  - reflexivity.
  - rewrite IH. apply orb_true_r.
Qed.

Lemma before_slash_app (a c : string) :
  PyStr.contains "/" a = false ->
  PyStr.before_slash (a ++ String "/" c) = a.
Proof.
  induction a as [|x a IH]; rewrite ?append_nil, ?append_cons; simpl;
    intros H.
  - reflexivity.
  - apply orb_false_elim in H as [Hx Ha]. rewrite Hx, (IH Ha). reflexivity.
Qed.

Lemma contains_slash_blanks (a : string) (n : nat) :
  PyStr.contains "/" a = false ->
  PyStr.contains "/" (a ++ blanks n) = false.
Proof.
  intros H. induction a as [|x a IH]; rewrite ?append_nil, ?append_cons;
    simpl in *.
  - induction n as [|n IHn]; [reflexivity | exact IHn].
  - apply orb_false_elim in H as [Hx Ha]. rewrite Hx, (IH Ha). reflexivity.
Qed.

Lemma rstrip_only_blanks (n : nat) :
  PyStr.rstrip PyStr.whitespace (blanks n) = EmptyString.
Proof.
  induction n as [|n IHn]; simpl; [reflexivity | rewrite IHn; reflexivity].
Qed.

Lemma rstrip_blanks (s : string) (n : nat) :
  PyStr.rstrip PyStr.whitespace (s ++ blanks n) =
  PyStr.rstrip PyStr.whitespace s.
Proof.
  induction s as [|x s IH]; rewrite ?append_nil, ?append_cons; simpl.
  - apply rstrip_only_blanks.
  - rewrite IH. reflexivity.
Qed.

Lemma revision_text (r : Z) :
  r ∈ SUPPORTED_VERSIONS ->
  PyStr.int (pretty r) = Some r /\
  PyStr.contains "/" (pretty r) = false /\
  PyStr.strip (pretty r) = pretty r /\
  exists x s, pretty r = String x s /\ PyStr.whitespace x = false.
Proof.
  intros H. unfold SUPPORTED_VERSIONS in H.
  repeat (apply elem_of_cons in H as [->|H]);
    try (repeat split; try reflexivity; eexists _, _; split; reflexivity).
  apply elem_of_nil in H. contradiction.
Qed.

Lemma revision_field_bare (r : Z) :
  r ∈ SUPPORTED_VERSIONS -> revision_field_value (pretty r) = Some r.
Proof.
  intros H. destruct (revision_text r H) as (Hint & Hslash & _).
  unfold revision_field_value. rewrite Hslash. exact Hint.
Qed.

Lemma revision_field_commented (r : Z) (n : nat) (comment : string) :
  r ∈ SUPPORTED_VERSIONS ->
  revision_field_value (pretty r ++ blanks n ++ String "/" comment) = Some r.
Proof.
  intros H.
  destruct (revision_text r H) as (Hint & Hslash & Hstrip & x & s & Hr & Hx).
  unfold revision_field_value.
  rewrite <- string_app_assoc, contains_slash_app.
  rewrite before_slash_app by (apply contains_slash_blanks; exact Hslash).
  assert (Hs : PyStr.strip (pretty r ++ blanks n) = pretty r).
  { rewrite <- Hstrip at 2. unfold PyStr.strip.
    rewrite Hr, append_cons. simpl. rewrite Hx.
    rewrite <- append_cons. apply rstrip_blanks. }
  rewrite Hs. exact Hint.
Qed.

Section Sniffer.

Variable csv_reader : string -> file -> list row.

Lemma version_of_field fd sep h0 rest h02 v :
  csv_reader sep fd = h0 :: rest ->
  h0 !! 2%nat = Some h02 ->
  revision_field_value h02 = Some v ->
  _version csv_reader (Some fd) sep =
  if py_in v SUPPORTED_VERSIONS
  then Run [Log INFO (VersionFound v)] (Return v)
  else Run [Log INFO (VersionFound v);
            Log WARNING
              (VersionNotSupported v SUPPORTED_VERSIONS DEFAULT_VERSION)]
           (Return DEFAULT_VERSION).
Proof.
  intros Hcsv H2 Hv.
  assert (Hlen : (length h0 <? 3)%nat = false).
  { apply Nat.ltb_ge. apply lookup_lt_Some in H2. lia. }
  unfold _version, field, to_int. simpl. rewrite Hcsv. simpl.
  rewrite Hlen, H2.
  unfold revision_field_value in Hv.
  destruct (PyStr.contains "/" h02); rewrite Hv; simpl;
    unfold py_in; simpl;
    match goal with |- context [orb ?a ?b] => destruct (orb a b) end;
    reflexivity.
Qed.

Lemma py_in_elem_of (x : Z) (l : list Z) : py_in x l = true <-> x ∈ l.
Proof.
  unfold py_in. rewrite existsb_exists. split.
  - intros (y & Hy & Heq). apply Z.eqb_eq in Heq. subst y.
    apply list_elem_of_In. exact Hy.
  - intros H. exists x. split; [apply list_elem_of_In; exact H | apply Z.eqb_refl].
Qed.

(** C5.  Let [h0] be the first row the reader yields.  If its third
    field is a supported revision r, bare or followed by blanks and a
    ["/"] comment, [_version] returns r.  If [h0] has fewer than three
    fields it returns the default revision 30, and so it does, after a
    warning, if the third field holds an integer outside the supported
    revisions; in no such case does it raise. *)
Theorem version_sniffed fd sep h0 rest :
  csv_reader sep fd = h0 :: rest ->
  (forall r f0 f1 more,
     r ∈ SUPPORTED_VERSIONS ->
     (h0 = f0 :: f1 :: pretty r :: more ->
      _version csv_reader (Some fd) sep =
        Run [Log INFO (VersionFound r)] (Return r)) /\
     (forall n comment,
        h0 = f0 :: f1 :: (pretty r ++ blanks n ++ String "/" comment) :: more ->
        _version csv_reader (Some fd) sep =
          Run [Log INFO (VersionFound r)] (Return r))) /\
  ((length h0 < 3)%nat ->
   _version csv_reader (Some fd) sep =
     Run [Log INFO (NoVersionInfo 30)] (Return 30%Z)) /\
  (forall h02 v,
     h0 !! 2%nat = Some h02 ->
     revision_field_value h02 = Some v ->
     v ∉ [29; 30; 31; 32]%Z ->
     _version csv_reader (Some fd) sep =
       Run [Log INFO (VersionFound v);
            Log WARNING (VersionNotSupported v [29; 30; 31; 32]%Z 30)]
           (Return 30%Z)).
Proof.
  intros Hcsv. split; [|split].
  - intros r f0 f1 more Hr.
    assert (Hin : py_in r SUPPORTED_VERSIONS = true)
      by (apply py_in_elem_of; exact Hr).
    split.
    + intros ->.
      rewrite (version_of_field fd sep _ rest (pretty r) r Hcsv eq_refl
                 (revision_field_bare r Hr)).
      rewrite Hin. reflexivity.
    + intros n comment ->.
      rewrite (version_of_field fd sep _ rest _ r Hcsv eq_refl
                 (revision_field_commented r n comment Hr)).
      rewrite Hin. reflexivity.
  - intros Hlen. unfold _version. simpl. rewrite Hcsv. simpl.
    apply Nat.ltb_lt in Hlen. rewrite Hlen. reflexivity.
  - intros h02 v H2 Hv Hout.
    rewrite (version_of_field fd sep h0 rest h02 v Hcsv H2 Hv).
    destruct (py_in v SUPPORTED_VERSIONS) eqn:Hin; [|reflexivity].
    apply py_in_elem_of in Hin. contradiction.
Qed.

End Sniffer.

(** [version_sniffed] at the round-trip file, whose header row is
    [1,100,30], and at a header that ends in a comment. *)
Lemma version_sniffed_witness :
  _version Sample.csv (Some Sample.round_trip) "," =
    Run [Log INFO (VersionFound 30)] (Return 30%Z) /\
  _version Sample.csv (Some ["0,100.0,31 / PSS/E 31 RAW"]) "," =
    Run [Log INFO (VersionFound 31)] (Return 31%Z).
Proof.
  split.
  - destruct (version_sniffed Sample.csv Sample.round_trip ","
                ["1"; "100"; "30"] (tail (Sample.csv "," Sample.round_trip))
                eq_refl) as [H _].
    specialize (H 30%Z "1" "100" [] ltac:(repeat constructor)).
    destruct H as [Hbare _].
    exact (Hbare eq_refl).
  - destruct (version_sniffed Sample.csv ["0,100.0,31 / PSS/E 31 RAW"] ","
                ["0"; "100.0"; "31 / PSS/E 31 RAW"] [] eq_refl) as [H _].
    specialize (H 31%Z "0" "100.0" [] ltac:(repeat constructor)).
    destruct H as [_ Hcomment].
    exact (Hcomment 1%nat " PSS/E 31 RAW" eq_refl).
Defined.

(** ** The header reader *)

Section Header.

Variable py_float : string -> option float.
Variable csv_reader : string -> file -> list row.

Lemma header_rejected f0 fs r1 r2 rest :
  f0 <> "0" -> f0 <> "1" ->
  _parse_header py_float ((f0 :: fs) :: r1 :: r2 :: rest) =
  Raise AssertionError.
Proof.
  intros H0 H1. unfold _parse_header. simpl.
  apply String.eqb_neq in H0, H1. rewrite H0, H1. reflexivity.
Qed.

Lemma header_accepted f0 f1 more r1 r2 rest x :
  f0 = "0" \/ f0 = "1" ->
  py_float f1 = Some x ->
  _parse_header py_float ((f0 :: f1 :: more) :: r1 :: r2 :: rest) =
  Return (x, rest).
Proof.
  intros H Hx. unfold _parse_header, to_float. simpl.
  destruct H as [-> | ->]; simpl; rewrite Hx; reflexivity.
Qed.

(** C4.  On a reader holding at least three rows, the first of which
    has [f0] as first field: if [f0] is neither ["0"] nor ["1"] the
    header reader raises [AssertionError] (the spec's FormatError), and
    so does [_parse_file] once delimiter and revision are known, so
    that no case is returned; if [f0] is ["0"] or ["1"] and the second
    field reads as a float, the header reader returns that float and
    the reader past exactly three rows. *)
Theorem header_checked f0 fs r1 r2 rest :
  (f0 <> "0" -> f0 <> "1" ->
   _parse_header py_float ((f0 :: fs) :: r1 :: r2 :: rest) =
     Raise AssertionError /\
   forall fd version delimiter sep rev,
     outcome (match delimiter with
              | None => _delimiter (Some fd)
              | Some d => mret d
              end) = Return sep ->
     outcome (match version with
              | None => _version csv_reader (Some fd) sep
              | Some v => mret v
              end) = Return rev ->
     csv_reader sep fd = (f0 :: fs) :: r1 :: r2 :: rest ->
     outcome (_parse_file py_float csv_reader (Some fd) version delimiter) =
       Raise AssertionError) /\
  (f0 = "0" \/ f0 = "1" ->
   forall f1 more x,
     fs = f1 :: more ->
     py_float f1 = Some x ->
     _parse_header py_float ((f0 :: fs) :: r1 :: r2 :: rest) =
       Return (x, rest)).
Proof.
  split.
  - intros H0 H1. split; [apply header_rejected; assumption|].
    intros fd version delimiter sep rev Hsep Hrev Hcsv.
    unfold _parse_file. apply outcome_bind_Raise.
    unfold sections_to_loads.
    rewrite (outcome_bind_Return _ _ _ Hsep).
    rewrite (outcome_bind_Return _ _ _ Hrev).
    simpl seek0. rewrite L_bind_lift, Hcsv.
    rewrite header_rejected by assumption. reflexivity.
  - intros H f1 more x -> Hx. apply header_accepted; assumption.
Qed.

End Header.

(** [header_checked] at a header row [2,100,30], which is rejected, and
    at the header of the round-trip file, which yields baseMVA 100. *)
Lemma header_checked_witness :
  outcome (_parse_file Sample.float_of_literal Sample.csv
             (Some ["2,100,30"; "title"; "title"; "0"]) None None) =
    Raise AssertionError /\
  _parse_header Sample.float_of_literal
    (Sample.header_rows ++ [["0"]])%list = Return (F64.of_Z 100, [["0"]]).
Proof.
  split.
  - destruct (header_checked Sample.float_of_literal Sample.csv
                "2" ["100"; "30"] ["title"] ["title"] [["0"]]) as [H _].
    destruct H as [_ H]; [discriminate | discriminate |].
    apply (H ["2,100,30"; "title"; "title"; "0"] None None "," 30%Z);
      reflexivity.
  - destruct (header_checked Sample.float_of_literal Sample.csv
                "1" ["100"; "30"] ["title"] ["title"] [["0"]]) as [_ H].
    apply (H (or_intror eq_refl) "100" ["30"]); reflexivity.
Defined.

(** C4 as stated fails outside these conditions.  A file of two rows
    whose header starts with [2] ends in [StopIteration], raised by
    the third [reader.next()] before the assertion is reached; a
    header [2,100,abc] ends in [ValueError], raised by [_version]
    before the header reader is called; and a header starting with
    [1] whose second field is no number yields no base MVA but
    [ValueError]. *)
Lemma header_checked_counterexample :
  _parse_header Sample.float_of_literal [["2"; "100"; "30"]; ["title"]] =
    Raise StopIteration /\
  outcome (_parse_file Sample.float_of_literal Sample.csv
             (Some ["2,100,30"; "title"]) None None) =
    Raise StopIteration /\
  outcome (_parse_file Sample.float_of_literal Sample.csv
             (Some ["2,100,abc"; "title"; "title"; "0"]) None None) =
    Raise ValueError /\
  _parse_header Sample.float_of_literal
    [["1"; "abc"; "30"]; ["title"]; ["title"]] = Raise ValueError.
Proof.
  repeat split; vm_compute; reflexivity.
Qed.

(** ** The load section *)

Lemma set_cell_ok (t : table) (r c : nat) (v : float) (line : list float) :
  t !! r = Some line ->
  (c < length line)%nat ->
  set_cell t r c v = Return (<[r := <[c := v]> line]> t).
Proof.
  intros Hr Hc. unfold set_cell. rewrite Hr.
  apply Nat.ltb_lt in Hc. rewrite Hc. reflexivity.
Qed.

Lemma scale_test_always (scale : float) :
  F64.neb scale F64.zero || F64.neb scale F64.one = true.
Proof.
  destruct scale as [[|] | [|] | | [|] m e]; reflexivity.
Qed.

Section LoadSection.

Variable py_float : string -> option float.

Lemma load_body_unresolved busmap version loaddata c bus status i :
  field loaddata 2 = Return status ->
  field loaddata 0 = Return i ->
  busmap !! PyStr.strip_quote i = None ->
  load_body py_float busmap version loaddata c bus =
  Run [Log ERROR (BusNotFound (PyStr.strip_quote i))] (Return bus).
Proof.
  intros H2 H0 Hmap. unfold load_body.
  rewrite H2, L_bind_lift, H0, L_bind_lift.
  unfold _busidx. rewrite Hmap.
  destruct (PyStr.truthy status); reflexivity.
Qed.

Lemma load_body_empty_status busmap version loaddata c bus i :
  field loaddata 2 = Return EmptyString ->
  field loaddata 0 = Return i ->
  outcome (load_body py_float busmap version loaddata c bus) = Return bus.
Proof.
  intros H2 H0. unfold load_body.
  rewrite H2, L_bind_lift, H0, L_bind_lift.
  unfold _busidx.
  destruct (busmap !! PyStr.strip_quote i); reflexivity.
Qed.

Lemma load_body_applied busmap version loaddata c bus status i idx line
    pl ql Ip Iq Yp Yq :
  field loaddata 2 = Return status ->
  status <> EmptyString ->
  field loaddata 0 = Return i ->
  busmap !! PyStr.strip_quote i = Some idx ->
  bus !! idx = Some line ->
  (3 < length line)%nat ->
  float_at py_float loaddata 5 = Return pl ->
  float_at py_float loaddata 6 = Return ql ->
  float_at py_float loaddata 7 = Return Ip ->
  float_at py_float loaddata 8 = Return Iq ->
  float_at py_float loaddata 9 = Return Yp ->
  float_at py_float loaddata 10 = Return Yq ->
  forall scale,
    (version = 32%Z -> float_at py_float loaddata 12 = Return scale) ->
    load_body py_float busmap version loaddata c bus =
    Run (current_warning Ip Iq i idx ++ admittance_warning Yp Yq i idx ++
         if (version =? 32)%Z
         then [Log WARNING (LoadNotScaled i idx scale)] else [])%list
        (Return (<[idx := <[3%nat := ql]> (<[2%nat := pl]> line)]> bus)).
Proof.
  intros H2 Hst H0 Hmap Hline Hlen Hpl Hql HIp HIq HYp HYq scale Hscale.
  assert (Hidx : (idx < length bus)%nat) by (eapply lookup_lt_Some; eassumption).
  unfold load_body.
  rewrite H2, L_bind_lift, H0, L_bind_lift.
  unfold _busidx. rewrite Hmap.
  destruct status as [|x status]; [contradiction|].
  simpl PyStr.truthy. rewrite L_bind_mret. cbv beta iota.
  rewrite Hpl, L_bind_lift.
  rewrite (set_cell_ok bus idx 2 pl line Hline) by lia.
  rewrite L_bind_lift, Hql, L_bind_lift.
  rewrite (set_cell_ok _ idx 3 ql (<[2%nat := pl]> line))
    by (rewrite ?length_insert; try lia; apply list_lookup_insert_eq; exact Hidx).
  rewrite list_insert_insert_eq.
  rewrite L_bind_lift, HIp, L_bind_lift, HIq, L_bind_lift.
  rewrite HYp, HYq.
  unfold current_warning, admittance_warning.
  destruct (Z.eqb_spec version 32) as [Hv|Hv].
  - rewrite (Hscale Hv). simpl. rewrite scale_test_always.
    destruct (F64.truthy Ip || F64.truthy Iq),
             (F64.truthy Yp || F64.truthy Yq); reflexivity.
  - simpl.
    destruct (F64.truthy Ip || F64.truthy Iq),
             (F64.truthy Yp || F64.truthy Yq); reflexivity.
Qed.

(** C2 on the code.  For a load data row with status field [status]
    and bus field [i]: if the bus is not found the bus table is
    unchanged and one error record is logged; if [status] is the empty
    string the bus table is unchanged; and if [status] is any other
    string, the text ["0"] included since [bool("0")] is true, and the
    bus is found at row [idx], the load cells of that row are
    overwritten with PL and QL and nothing else changes. *)
Theorem load_row_effect busmap version loaddata c bus status i :
  field loaddata 2 = Return status ->
  field loaddata 0 = Return i ->
  (busmap !! PyStr.strip_quote i = None ->
   load_body py_float busmap version loaddata c bus =
     Run [Log ERROR (BusNotFound (PyStr.strip_quote i))] (Return bus)) /\
  (status = EmptyString ->
   outcome (load_body py_float busmap version loaddata c bus) = Return bus) /\
  (status <> EmptyString ->
   forall idx line pl ql Ip Iq Yp Yq scale,
     busmap !! PyStr.strip_quote i = Some idx ->
     bus !! idx = Some line ->
     (3 < length line)%nat ->
     float_at py_float loaddata 5 = Return pl ->
     float_at py_float loaddata 6 = Return ql ->
     float_at py_float loaddata 7 = Return Ip ->
     float_at py_float loaddata 8 = Return Iq ->
     float_at py_float loaddata 9 = Return Yp ->
     float_at py_float loaddata 10 = Return Yq ->
     (version = 32%Z -> float_at py_float loaddata 12 = Return scale) ->
     outcome (load_body py_float busmap version loaddata c bus) =
       Return (<[idx := <[3%nat := ql]> (<[2%nat := pl]> line)]> bus)).
Proof.
  intros H2 H0. split; [|split].
  - intros Hmap. eapply load_body_unresolved; eassumption.
  - intros ->. eapply load_body_empty_status; eassumption.
  - intros Hst idx line pl ql Ip Iq Yp Yq scale
      Hmap Hline Hlen Hpl Hql HIp HIq HYp HYq Hscale.
    rewrite (load_body_applied busmap version loaddata c bus status i idx
               line pl ql Ip Iq Yp Yq H2 Hst H0 Hmap Hline Hlen
               Hpl Hql HIp HIq HYp HYq scale Hscale).
    reflexivity.
Qed.

(** C8 at its failing inputs.  For a revision 32 load row that is
    applied, the test [(scale != 0.0) or (scale != 1.0)] holds of every
    float, so the not-scaled warning is the last record logged for the
    row whatever the scale field holds, 0 and 1 included. *)
Theorem load_scale_warning_always busmap loaddata c bus status i idx line
    pl ql Ip Iq Yp Yq scale :
  field loaddata 2 = Return status ->
  status <> EmptyString ->
  field loaddata 0 = Return i ->
  busmap !! PyStr.strip_quote i = Some idx ->
  bus !! idx = Some line ->
  (3 < length line)%nat ->
  float_at py_float loaddata 5 = Return pl ->
  float_at py_float loaddata 6 = Return ql ->
  float_at py_float loaddata 7 = Return Ip ->
  float_at py_float loaddata 8 = Return Iq ->
  float_at py_float loaddata 9 = Return Yp ->
  float_at py_float loaddata 10 = Return Yq ->
  float_at py_float loaddata 12 = Return scale ->
  emitted (load_body py_float busmap 32 loaddata c bus) =
  (current_warning Ip Iq i idx ++ admittance_warning Yp Yq i idx ++
   [Log WARNING (LoadNotScaled i idx scale)])%list.
Proof.
  intros H2 Hst H0 Hmap Hline Hlen Hpl Hql HIp HIq HYp HYq Hscale.
  rewrite (load_body_applied busmap 32 loaddata c bus status i idx line
             pl ql Ip Iq Yp Yq H2 Hst H0 Hmap Hline Hlen
             Hpl Hql HIp HIq HYp HYq scale (fun _ => Hscale)).
  reflexivity.
Qed.

End LoadSection.

(** [load_row_effect] at the load row [2,1,0,1,1,10,5,...], whose
    status field is ["0"]: the load cells of bus 2 go from 0, 0 to
    10, 5. *)
Lemma load_row_effect_witness :
  cell Sample.bus_table 1 2 = Return F64.zero /\
  cell Sample.bus_table 1 3 = Return F64.zero /\
  exists bus',
    outcome (load_body Sample.float_of_literal Sample.bus_index 30
               Sample.load_row_out_of_service 0 Sample.bus_table) =
      Return bus' /\
    cell bus' 1 2 = Return (F64.of_Z 10) /\
    cell bus' 1 3 = Return (F64.of_Z 5).
Proof.
  split; [reflexivity|]. split; [reflexivity|].
  destruct (load_row_effect Sample.float_of_literal Sample.bus_index 30
              Sample.load_row_out_of_service 0%nat Sample.bus_table "0" "2"
              eq_refl eq_refl) as (_ & _ & Happlied).
  eexists. split.
  - eapply (Happlied ltac:(discriminate) 1%nat _ _ _ _ _ _ _ F64.zero);
      try reflexivity; [simpl; lia | discriminate].
  - split; reflexivity.
Defined.

(** [load_scale_warning_always] at a revision 32 load row whose scale
    field is ["1"]: the warning is logged. *)
Lemma load_scale_warning_always_witness :
  emitted (load_body Sample.float_of_literal Sample.bus_index 32
             Sample.load_row_scale_one 0 Sample.bus_table) =
  [Log WARNING (LoadNotScaled "2" 1 F64.one)].
Proof.
  apply (load_scale_warning_always Sample.float_of_literal Sample.bus_index
           Sample.load_row_scale_one 0%nat Sample.bus_table "1" "2" 1%nat
           (Sample.bus_table !!! 1%nat) (F64.of_Z 10) (F64.of_Z 5)
           F64.zero F64.zero F64.zero F64.zero F64.one);
    try reflexivity; [discriminate | simpl; lia].
Defined.

(** ** The generator section *)

Section GeneratorSection.

Variable py_float : string -> option float.

Lemma field_head (i : string) (more : row) : field (i :: more) 0 = Return i.
Proof. reflexivity. Qed.

Lemma field_second (f0 f1 : string) (more : row) :
  field (f0 :: f1 :: more) 1 = Return f1.
Proof. reflexivity. Qed.

Lemma gen_body_found busmap gendata c generators g :
  bus_found busmap gendata = true ->
  gen_record py_float gendata = Return g ->
  gen_body py_float busmap gendata c generators =
  Run [] (Return (generators ++ [g])%list).
Proof.
  intros Hfound Hg. destruct gendata as [|i more]; [discriminate|].
  simpl in Hfound. apply bool_decide_eq_true_1 in Hfound as [idx Hidx].
  unfold gen_body. rewrite field_head, L_bind_lift.
  unfold _busidx. rewrite Hidx, L_bind_mret, Hg, L_bind_lift. reflexivity.
Qed.

Lemma gen_body_not_found busmap i more c generators :
  bus_found busmap (i :: more) = false ->
  gen_body py_float busmap (i :: more) c generators =
  Run [Log ERROR (BusNotFound (PyStr.strip_quote i))] (Return generators).
Proof.
  intros Hfound. simpl in Hfound. apply bool_decide_eq_false_1 in Hfound.
  unfold gen_body. rewrite field_head, L_bind_lift. unfold _busidx.
  destruct (busmap !! PyStr.strip_quote i) as [idx|] eqn:Hidx.
  - exfalso. apply Hfound. exists idx. reflexivity.
  - reflexivity.
Qed.

Lemma data_row_cons (r : row) : data_row r -> exists i more, r = i :: more.
Proof.
  destruct r as [|i more]; [discriminate | eauto].
Qed.

Lemma run_rows_generators busmap rows :
  Forall data_row rows ->
  forall recs generators c,
    Forall2 (fun r g => gen_record py_float r = Return g)
            (List.filter (bus_found busmap) rows) recs ->
    outcome (run_rows (gen_body py_float busmap) rows generators c) =
    Return ((generators ++ recs)%list, (c + length rows)%nat).
Proof.
  induction 1 as [|r rows Hr _ IH]; intros recs generators c Hrecs.
  - simpl in Hrecs. apply Forall2_nil_inv_l in Hrecs. subst recs.
    simpl. rewrite app_nil_r, Nat.add_0_r. reflexivity.
  - cbn [run_rows]. simpl List.filter in Hrecs.
    destruct (bus_found busmap r) eqn:Hfound.
    + apply Forall2_cons_inv_l in Hrecs as (g & recs' & Hg & Hrecs & ->).
      rewrite (gen_body_found _ _ _ _ _ Hfound Hg), L_bind_run. simpl.
      rewrite (IH recs' _ _ Hrecs), <- app_assoc. simpl.
      do 2 f_equal. lia.
    + destruct (data_row_cons r Hr) as (i & more & ->).
      rewrite (gen_body_not_found _ _ _ _ _ Hfound), L_bind_run. simpl.
      rewrite (IH recs _ _ Hrecs). do 2 f_equal. lia.
Qed.

Lemma gen_record_fields gendata g :
  gen_record py_float gendata = Return g ->
  exists b Pg Qg Qmax Qmin Vg mBase status Pmax Pmin,
    float_at py_float gendata 2 = Return Pg /\
    float_at py_float gendata 3 = Return Qg /\
    float_at py_float gendata 4 = Return Qmax /\
    float_at py_float gendata 5 = Return Qmin /\
    float_at py_float gendata 6 = Return Vg /\
    float_at py_float gendata 8 = Return mBase /\
    float_at py_float gendata 14 = Return status /\
    float_at py_float gendata 16 = Return Pmax /\
    float_at py_float gendata 17 = Return Pmin /\
    g = b :: Pg :: Qg :: Qmax :: Qmin :: Vg :: mBase :: status :: Pmax ::
        Pmin :: replicate 11 F64.zero.
Proof.
  unfold gen_record.
  destruct (float_at py_float gendata 2) as [Pg|]; [|discriminate].
  destruct (float_at py_float gendata 3) as [Qg|]; [|discriminate].
  destruct (float_at py_float gendata 4) as [Qmax|]; [|discriminate].
  destruct (float_at py_float gendata 5) as [Qmin|]; [|discriminate].
  destruct (float_at py_float gendata 6) as [Vg|]; [|discriminate].
  destruct (float_at py_float gendata 8) as [mBase|]; [|discriminate].
  destruct (float_at py_float gendata 14) as [status|]; [|discriminate].
  destruct (float_at py_float gendata 16) as [Pmax|]; [|discriminate].
  destruct (float_at py_float gendata 17) as [Pmin|]; [|discriminate].
  simpl. intros H. injection H as <-.
  exists F64.zero, Pg, Qg, Qmax, Qmin, Vg, mBase, status, Pmax, Pmin.
  repeat split; reflexivity.
Qed.

(** C7, as amended.  On a generator section of data rows followed by a
    terminator row, where the rows whose bus is found read as floats at
    the columns used, [_parse_generators] returns exactly one record per
    data row whose bus is found, in service or not, in input order.
    The record carries Pg, Qg, Qmax, Qmin, Vg, mBase, status, Pmax and
    Pmin from columns 2, 3, 4, 5, 6, 8, 14, 16 and 17 of its row, and
    its last eleven fields are zero. *)
Theorem generator_section busmap rows term rest recs :
  Forall data_row rows ->
  terminator_row term ->
  Forall2 (fun r g => gen_record py_float r = Return g)
          (List.filter (bus_found busmap) rows) recs ->
  outcome (_parse_generators py_float (rows ++ term :: rest)%list busmap) =
    Return (recs, rest) /\
  length recs = length (List.filter (bus_found busmap) rows) /\
  Forall2 (fun r g =>
      exists b Pg Qg Qmax Qmin Vg mBase status Pmax Pmin,
        float_at py_float r 2 = Return Pg /\
        float_at py_float r 3 = Return Qg /\
        float_at py_float r 4 = Return Qmax /\
        float_at py_float r 5 = Return Qmin /\
        float_at py_float r 6 = Return Vg /\
        float_at py_float r 8 = Return mBase /\
        float_at py_float r 14 = Return status /\
        float_at py_float r 16 = Return Pmax /\
        float_at py_float r 17 = Return Pmin /\
        g = b :: Pg :: Qg :: Qmax :: Qmin :: Vg :: mBase :: status ::
            Pmax :: Pmin :: replicate 11 F64.zero)
    (List.filter (bus_found busmap) rows) recs.
Proof.
  intros Hrows Hterm Hrecs. split; [|split].
  - unfold _parse_generators. rewrite next_then_loop.
    rewrite (enter_rows _ _ _ Hterm _ _ _ Hrows).
    pose proof (run_rows_generators busmap rows Hrows recs [] 0%nat Hrecs)
      as Hrun.
    destruct (run_rows (gen_body py_float busmap) rows [] 0%nat)
      as [l [[gens c]|e]]; simpl in Hrun; [|discriminate].
    injection Hrun as -> ->. reflexivity.
  - symmetry. eapply Forall2_length. exact Hrecs.
  - eapply Forall2_impl; [exact Hrecs|].
    intros r g Hg. apply gen_record_fields. exact Hg.
Qed.

End GeneratorSection.

(** [generator_section] at a section holding one generator at bus 2. *)
Lemma generator_section_witness :
  exists g,
    outcome (_parse_generators Sample.float_of_literal
               [Sample.gen_row_out_of_service; ["0 / END OF GENERATOR DATA"]]
               Sample.bus_index) = Return ([g], []) /\
    g !! 1%nat = Some (F64.of_Z 40) /\
    g !! 8%nat = Some (F64.of_Z 80).
Proof.
  eassert (Hrecs : Forall2
             (fun r g => gen_record Sample.float_of_literal r = Return g)
             (List.filter (bus_found Sample.bus_index)
                [Sample.gen_row_out_of_service]) [_]).
  { constructor; [vm_compute; reflexivity | constructor]. }
  destruct (generator_section Sample.float_of_literal Sample.bus_index
              [Sample.gen_row_out_of_service]
              ["0 / END OF GENERATOR DATA"] [] _
              ltac:(repeat constructor) eq_refl Hrecs) as (Hrun & _ & _).
  eexists. split; [exact Hrun|]. split; reflexivity.
Defined.

(** C7 as stated fails on a generator that is out of service: its row,
    whose STAT field reads 0, yields a record all the same. *)
Lemma generator_section_counterexample :
  float_at Sample.float_of_literal Sample.gen_row_out_of_service 14 =
    Return F64.zero /\
  exists g,
    outcome (_parse_generators Sample.float_of_literal
               [Sample.gen_row_out_of_service; ["0 / END OF GENERATOR DATA"]]
               Sample.bus_index) = Return ([g], []) /\
    g !! 7%nat = Some F64.zero.
Proof.
  split; [reflexivity|].
  eexists. split; [vm_compute; reflexivity | reflexivity].
Qed.

(** ** The branch section *)

Section BranchSection.

Variable py_float : string -> option float.

Lemma branch_body_found busmap bus brchdata c branches f0 f1 fbus tbus
    fid ttype r x b rateA rateB rateC status :
  field brchdata 0 = Return f0 ->
  busmap !! PyStr.strip_quote f0 = Some fbus ->
  field brchdata 1 = Return f1 ->
  busmap !! PyStr.strip_quote f1 = Some tbus ->
  cell bus fbus 0 = Return fid ->
  cell bus tbus 1 = Return ttype ->
  float_at py_float brchdata 3 = Return r ->
  float_at py_float brchdata 4 = Return x ->
  float_at py_float brchdata 5 = Return b ->
  float_at py_float brchdata 6 = Return rateA ->
  float_at py_float brchdata 7 = Return rateB ->
  float_at py_float brchdata 8 = Return rateC ->
  float_at py_float brchdata 13 = Return status ->
  branch_body py_float bus busmap brchdata c branches =
  Run [] (Return (branches ++
                  [[fid; ttype; r; x; b; rateA; rateB; rateC;
                    F64.zero; F64.zero; status;
                    F64.lit_neg_360; F64.lit_360]])%list).
Proof.
  intros H0 Hf H1 Ht Hfid Httype Hr Hx Hb HA HB HC Hst.
  unfold branch_body, _busidx.
  rewrite H0, L_bind_lift, Hf, L_bind_mret.
  rewrite H1, L_bind_lift, Ht, L_bind_mret.
  unfold branch_record.
  rewrite Hfid, Httype, Hr, Hx, Hb, HA, HB, HC, Hst. reflexivity.
Qed.

Lemma branch_body_resolved busmap bus brchdata c branches fbus tbus brch :
  branch_ends busmap brchdata = Some (fbus, tbus) ->
  branch_record py_float bus fbus tbus brchdata = Return brch ->
  branch_body py_float bus busmap brchdata c branches =
  Run [] (Return (branches ++ [brch])%list).
Proof.
  intros Hends Hrec. destruct brchdata as [|f0 [|f1 more]]; try discriminate.
  simpl in Hends.
  destruct (busmap !! PyStr.strip_quote f0) as [fbus'|] eqn:Hf;
    [|discriminate].
  destruct (busmap !! PyStr.strip_quote f1) as [tbus'|] eqn:Ht;
    [|discriminate].
  injection Hends as -> ->.
  unfold branch_body, _busidx.
  rewrite field_head, L_bind_lift, Hf, L_bind_mret.
  rewrite field_second, L_bind_lift, Ht, L_bind_mret.
  rewrite Hrec, L_bind_lift. reflexivity.
Qed.

Lemma branch_body_unresolved busmap bus brchdata c branches :
  (2 <= length brchdata)%nat ->
  branch_ends busmap brchdata = None ->
  outcome (branch_body py_float bus busmap brchdata c branches) =
  Return branches.
Proof.
  intros Hlen Hends.
  destruct brchdata as [|f0 [|f1 more]]; simpl in Hlen; try lia.
  simpl in Hends. unfold branch_body.
  rewrite field_head, L_bind_lift.
  assert (Hidx : forall i, exists idx,
             outcome (_busidx i busmap) = Return idx /\
             idx = busmap !! PyStr.strip_quote i).
  { intros i. unfold _busidx.
    destruct (busmap !! PyStr.strip_quote i) as [idx|]; eauto. }
  destruct (Hidx f0) as (fbus & Hf & ->).
  rewrite (outcome_bind_Return _ _ _ Hf), field_second, L_bind_lift.
  destruct (Hidx f1) as (tbus & Ht & ->).
  rewrite (outcome_bind_Return _ _ _ Ht).
  destruct (busmap !! PyStr.strip_quote f0) as [fbus|],
           (busmap !! PyStr.strip_quote f1) as [tbus|];
    try discriminate; reflexivity.
Qed.

Lemma run_rows_branches busmap bus rows :
  Forall (fun r => (2 <= length r)%nat) rows ->
  forall recs branches c,
    Forall2 (fun '(fbus, tbus, r) brch =>
               branch_record py_float bus fbus tbus r = Return brch)
            (resolved_branches busmap rows) recs ->
    outcome (run_rows (branch_body py_float bus busmap) rows branches c) =
    Return ((branches ++ recs)%list, (c + length rows)%nat).
Proof.
  unfold resolved_branches.
  induction 1 as [|r rows Hr _ IH]; intros recs branches c Hrecs.
  - apply Forall2_nil_inv_l in Hrecs. subst recs. simpl.
    rewrite app_nil_r, Nat.add_0_r. reflexivity.
  - cbn [run_rows]. simpl omap in Hrecs.
    destruct (branch_ends busmap r) as [[fbus tbus]|] eqn:Hends;
      simpl in Hrecs.
    + apply Forall2_cons_inv_l in Hrecs as (brch & recs' & Hrec & Hrecs & ->).
      rewrite (branch_body_resolved _ _ _ _ _ _ _ _ Hends Hrec), L_bind_run.
      simpl. rewrite (IH recs' _ _ Hrecs), <- app_assoc. simpl.
      do 2 f_equal. lia.
    + pose proof (branch_body_unresolved busmap bus r c branches Hr Hends)
        as Hskip.
      rewrite (outcome_bind_Return _ _ _ Hskip).
      rewrite (IH recs _ _ Hrecs). simpl. do 2 f_equal. lia.
Qed.

Lemma branch_record_fields bus fbus tbus brchdata brch :
  branch_record py_float bus fbus tbus brchdata = Return brch ->
  exists fid ttype r x b rateA rateB rateC status,
    cell bus fbus 0 = Return fid /\
    cell bus tbus 1 = Return ttype /\
    float_at py_float brchdata 3 = Return r /\
    float_at py_float brchdata 4 = Return x /\
    float_at py_float brchdata 5 = Return b /\
    float_at py_float brchdata 6 = Return rateA /\
    float_at py_float brchdata 7 = Return rateB /\
    float_at py_float brchdata 8 = Return rateC /\
    float_at py_float brchdata 13 = Return status /\
    brch = [fid; ttype; r; x; b; rateA; rateB; rateC; F64.zero; F64.zero;
            status; F64.lit_neg_360; F64.lit_360].
Proof.
  unfold branch_record.
  destruct (cell bus fbus 0) as [fid|]; [|discriminate].
  destruct (cell bus tbus 1) as [ttype|]; [|discriminate].
  destruct (float_at py_float brchdata 3) as [r|]; [|discriminate].
  destruct (float_at py_float brchdata 4) as [x|]; [|discriminate].
  destruct (float_at py_float brchdata 5) as [b|]; [|discriminate].
  destruct (float_at py_float brchdata 6) as [rateA|]; [|discriminate].
  destruct (float_at py_float brchdata 7) as [rateB|]; [|discriminate].
  destruct (float_at py_float brchdata 8) as [rateC|]; [|discriminate].
  destruct (float_at py_float brchdata 13) as [status|]; [|discriminate].
  simpl. intros H. injection H as <-.
  exists fid, ttype, r, x, b, rateA, rateB, rateC, status.
  repeat split; reflexivity.
Qed.

(** C3 on the code.  On a branch section of data rows, each holding
    its two bus fields, followed by a terminator row, the branch reader
    returns exactly one record per row both of whose buses are found,
    in input order, and nothing for the other rows.  The record has
    the resistance, reactance, susceptance, three ratings and status of
    columns 3 to 8 and 13 of its row, zero ratio and angle, and limits
    -360 and 360.  Its from-bus field is column 0 of the from-bus row,
    the bus number; its to-bus field is column 1 of the to-bus row,
    which holds the bus type, not the bus number. *)
Theorem branch_section busmap bus rows term rest recs :
  Forall data_row rows ->
  Forall (fun r => (2 <= length r)%nat) rows ->
  terminator_row term ->
  Forall2 (fun '(fbus, tbus, r) brch =>
             branch_record py_float bus fbus tbus r = Return brch)
          (resolved_branches busmap rows) recs ->
  outcome (_parse_nontransformer_branches py_float
             (rows ++ term :: rest)%list bus busmap) = Return (recs, rest) /\
  Forall2 (fun '(fbus, tbus, row) brch =>
      exists fid ttype r x b rateA rateB rateC status,
        cell bus fbus 0 = Return fid /\
        cell bus tbus 1 = Return ttype /\
        float_at py_float row 3 = Return r /\
        float_at py_float row 4 = Return x /\
        float_at py_float row 5 = Return b /\
        float_at py_float row 6 = Return rateA /\
        float_at py_float row 7 = Return rateB /\
        float_at py_float row 8 = Return rateC /\
        float_at py_float row 13 = Return status /\
        brch = [fid; ttype; r; x; b; rateA; rateB; rateC; F64.zero; F64.zero;
                status; F64.lit_neg_360; F64.lit_360])
    (resolved_branches busmap rows) recs.
Proof.
  intros Hrows Hlen Hterm Hrecs. split.
  - unfold _parse_nontransformer_branches. rewrite next_then_loop.
    rewrite (enter_rows _ _ _ Hterm _ _ _ Hrows).
    pose proof (run_rows_branches busmap bus rows Hlen recs [] 0%nat Hrecs)
      as Hrun.
    destruct (run_rows (branch_body py_float bus busmap) rows [] 0%nat)
      as [l [[branches c]|e]]; simpl in Hrun; [|discriminate].
    injection Hrun as -> ->. reflexivity.
  - eapply Forall2_impl; [exact Hrecs|].
    intros [[fbus tbus] row] brch Hrec.
    apply (branch_record_fields _ _ _ _ _ Hrec).
Qed.

End BranchSection.

(** [branch_section] at a section holding a branch from bus 2 to bus 1
    and a branch from an unknown bus 9: one record, whose from-bus
    field is 2 and whose to-bus field is 3, the type of bus 1. *)
Lemma branch_section_witness :
  cell Sample.bus_table 0 0 = Return (F64.of_Z 1) /\
  cell Sample.bus_table 0 1 = Return (F64.of_Z 3) /\
  exists brch,
    outcome (_parse_nontransformer_branches Sample.float_of_literal
               [Sample.branch_row_2_1; ["9"; "1"];
                ["0 / END OF BRANCH DATA"]]
               Sample.bus_table Sample.bus_index) = Return ([brch], []) /\
    brch !! 0%nat = Some (F64.of_Z 2) /\
    brch !! 1%nat = Some (F64.of_Z 3).
Proof.
  split; [reflexivity|]. split; [reflexivity|].
  eassert (Hrecs : Forall2
             (fun '(fbus, tbus, r) brch =>
                branch_record Sample.float_of_literal Sample.bus_table
                  fbus tbus r = Return brch)
             (resolved_branches Sample.bus_index
                [Sample.branch_row_2_1; ["9"; "1"]]) [_]).
  { constructor; [vm_compute; reflexivity | constructor]. }
  destruct (branch_section Sample.float_of_literal Sample.bus_index
              Sample.bus_table [Sample.branch_row_2_1; ["9"; "1"]]
              ["0 / END OF BRANCH DATA"] [] _
              ltac:(repeat constructor)
              ltac:(repeat constructor; simpl; lia)
              eq_refl Hrecs) as (Hrun & _).
  eexists. split; [exact Hrun|]. split; reflexivity.
Defined.

(** ** The entry points *)

Section EntryPoints.

Variable py_float : string -> option float.
Variable csv_reader : string -> file -> list row.
Variable open_rb : string -> option file.

Lemma parse_file_no_file version delimiter :
  _parse_file py_float csv_reader None version delimiter =
  Run [] (Raise AttributeError).
Proof.
  unfold _parse_file, sections_to_loads.
  destruct delimiter as [d|], version as [v|]; reflexivity.
Qed.

(** C9 at its failing input.  Called on a path that [open] refuses,
    [psse2case] logs the error and then, from its [finally] clause,
    calls [_parse_file] on [None]: it raises [AttributeError] instead of
    returning [None]. *)
Theorem psse2case_unopened_raises name version delimiter :
  open_rb name = None ->
  psse2case py_float csv_reader open_rb (Path name) version delimiter =
  Run [Log INFO (Loading (PyStr.basename name));
       Log ERROR (ErrorOpening (PyStr.basename name))]
      (Raise AttributeError).
Proof.
  intros Hopen. unfold psse2case. rewrite Hopen.
  rewrite parse_file_no_file. reflexivity.
Qed.

Lemma parse_file_after_loads fd version delimiter pre :
  outcome (sections_to_loads py_float csv_reader fd version delimiter) =
    Return pre ->
  outcome (_parse_file py_float csv_reader fd version delimiter) =
    Raise TypeError.
Proof.
  intros Hpre. unfold _parse_file.
  rewrite (outcome_bind_Return _ _ _ Hpre).
  destruct pre as [[[[baseMVA busdata] busmap] rev] reader]. reflexivity.
Qed.

(** C10.  The call [_parse_generators(reader)] made by [_parse_file]
    lacks the [busmap] argument and raises [TypeError], and so does
    the call [_parse_shunt(reader, busdata)] made for revisions 29 and
    30, which has one argument too many.  Hence [_parse_file] never
    returns a case: once the sections up to the loads have been read
    it raises [TypeError]; and for revisions 29 and 30 what follows the
    generator call would raise [TypeError] again after the branches. *)
Theorem parse_file_arity_errors :
  (forall reader,
     call_parse_generators py_float [AReader reader] = raise TypeError) /\
  (forall reader busdata,
     call_parse_shunt [AReader reader; ATable busdata] = raise TypeError) /\
  (forall fd version delimiter ppc,
     outcome (_parse_file py_float csv_reader fd version delimiter) <>
       Return ppc) /\
  (forall fd version delimiter pre,
     outcome (sections_to_loads py_float csv_reader fd version delimiter) =
       Return pre ->
     outcome (_parse_file py_float csv_reader fd version delimiter) =
       Raise TypeError) /\
  (forall reader busdata busmap version rev baseMVA gendata branches,
     py_in rev [29; 30]%Z = true ->
     outcome (_parse_nontransformer_branches py_float reader busdata busmap) =
       Return branches ->
     outcome (sections_from_branches py_float reader busdata busmap version
                rev baseMVA gendata) = Raise TypeError).
Proof.
  split; [reflexivity|]. split; [reflexivity|]. split; [|split].
  - intros fd version delimiter ppc H.
    destruct (outcome (sections_to_loads py_float csv_reader fd version
                         delimiter)) as [pre|e] eqn:Hpre.
    + rewrite (parse_file_after_loads _ _ _ _ Hpre) in H. discriminate.
    + unfold _parse_file in H.
      rewrite (outcome_bind_Raise _ _ _ Hpre) in H. discriminate.
  - apply parse_file_after_loads.
  - intros reader busdata busmap version rev baseMVA gendata
      [branches reader'] Hrev Hbranches.
    unfold sections_from_branches.
    rewrite (outcome_bind_Return _ _ _ Hbranches).
    unfold _parse_transformers. rewrite L_bind_mret, Hrev. reflexivity.
Qed.

End EntryPoints.

(** [psse2case_unopened_raises] at a path of an empty file system. *)
Lemma psse2case_unopened_raises_witness :
  psse2case Sample.float_of_literal Sample.csv Sample.no_file
    (Path "/tmp/missing.raw") None None =
  Run [Log INFO (Loading "missing.raw"); Log ERROR (ErrorOpening "missing.raw")]
      (Raise AttributeError).
Proof.
  apply (psse2case_unopened_raises Sample.float_of_literal Sample.csv
           Sample.no_file "/tmp/missing.raw" None None).
  reflexivity.
Defined.

(** [parse_file_arity_errors] at the round-trip file, on which the
    header, bus and load sections are read before the generator call
    raises. *)
Lemma parse_file_arity_errors_witness :
  outcome (_parse_file Sample.float_of_literal Sample.csv
             (Some Sample.round_trip) None None) = Raise TypeError.
Proof.
  destruct (parse_file_arity_errors Sample.float_of_literal Sample.csv)
    as (_ & _ & _ & H & _).
  eapply H. vm_compute. reflexivity.
Defined.

(** ** The round-trip scenario *)

Lemma digit_plain c d :
  PyStr.digit c = Some d ->
  PyStr.whitespace c = false /\ c <> "+"%char /\ c <> "-"%char.
Proof.
  destruct c as [[] [] [] [] [] [] [] []]; try discriminate;
    intros _; repeat split; try reflexivity; discriminate.
Qed.

Lemma rstrip_digits s : forall acc z,
  PyStr.digits acc s = Some z -> PyStr.rstrip PyStr.whitespace s = s.
Proof.
  induction s as [|c s IH]; intros acc z H; simpl in *; [reflexivity|].
  destruct (PyStr.digit c) as [d|] eqn:Hd; [|discriminate].
  rewrite (IH _ _ H). destruct (digit_plain c d Hd) as (Hws & _).
  destruct s; [rewrite Hws|]; reflexivity.
Qed.

Lemma int_of_digits s z :
  PyStr.nonempty_digits s = Some z -> PyStr.int s = Some z.
Proof.
  destruct s as [|c s]; [discriminate|]. intros H.
  assert (Hd : exists d, PyStr.digit c = Some d).
  { simpl in H. destruct (PyStr.digit c) as [d|]; [eauto | discriminate]. }
  destruct Hd as [d Hd]. destruct (digit_plain c d Hd) as (Hws & Hplus & Hminus).
  unfold PyStr.int, PyStr.strip. simpl PyStr.lstrip. rewrite Hws.
  rewrite (rstrip_digits _ _ _ H).
  destruct c as [[] [] [] [] [] [] [] []]; try discriminate; try exact H;
    congruence.
Qed.

Lemma float_of_literal_reads_numerals : reads_numerals Sample.float_of_literal.
Proof.
  intros s z H. unfold Sample.float_of_literal.
  rewrite (int_of_digits s z H). reflexivity.
Qed.

Section RoundTrip.

Variable py_float : string -> option float.
Hypothesis Hpf : reads_numerals py_float.

Ltac numerals :=
  unfold float_at, int_at, to_float, to_int, store_int; simpl;
  repeat (match goal with
          | |- context [py_float ?s] => rewrite (Hpf s _ eq_refl)
          end; simpl).

(** C1, as amended.  On the rows of the round-trip file, and for a
    [float] that reads numerals, the header reader returns baseMVA 100;
    the bus reader then returns two bus rows; the load reader leaves
    two bus rows, the load fields of bus 2 being 10 and 5; the
    generator reader, given the bus index table, returns no row; and
    the branch reader returns one row, whose from-bus field is 1, the
    number of the bus found at row 0. *)
Theorem round_trip_sections :
  exists r1 buses busmap r2 bus' r3 r4 brch,
    _parse_header py_float Sample.round_trip_rows =
      Return (F64.of_Z 100, r1) /\
    outcome (_parse_buses py_float r1 30) = Return (buses, busmap, r2) /\
    length buses = 2%nat /\
    outcome (_parse_loads py_float r2 buses busmap 30) = Return (bus', r3) /\
    length bus' = 2%nat /\
    cell bus' 1 2 = Return (F64.of_Z 10) /\
    cell bus' 1 3 = Return (F64.of_Z 5) /\
    outcome (_parse_generators py_float r3 busmap) = Return ([], r4) /\
    outcome (_parse_nontransformer_branches py_float r4 bus' busmap) =
      Return ([brch], []) /\
    brch !! 0%nat = Some (F64.of_Z 1).
Proof.
  eassert (Hent : Forall2 (fun r e => bus_entry py_float 30 r = Return e)
                    Sample.bus_rows _).
  { constructor; [unfold bus_entry, bus_record; numerals; reflexivity|].
    constructor; [unfold bus_entry, bus_record; numerals; reflexivity|].
    constructor. }
  set (t1 := ["0 / END OF BUS DATA"]).
  set (t2 := ["0 / END OF LOAD DATA"]).
  set (t3 := ["0 / END OF GENERATOR DATA"]).
  set (t4 := ["0 / END OF BRANCH DATA"]).
  set (r4 := (Sample.branch_rows ++ t4 :: [])%list).
  set (r3 := t3 :: r4).
  set (r2 := (Sample.load_rows ++ t2 :: r3)%list).
  set (r1 := (Sample.bus_rows ++ t1 :: r2)%list).
  exists r1. eexists _, _. exists r2. eexists. exists r3, r4. eexists.
  split; [unfold _parse_header; numerals; reflexivity|].
  split.
  { unfold _parse_buses, r1. rewrite next_then_loop.
    rewrite (enter_rows _ t1 r2 eq_refl) by (repeat constructor).
    rewrite (run_rows_buses _ _ _ _ Hent). reflexivity. }
  split; [reflexivity|].
  split.
  { unfold _parse_loads, r2. rewrite next_then_loop.
    rewrite (enter_rows _ t2 r3 eq_refl) by (repeat constructor).
    unfold Sample.load_rows. cbn [run_rows].
    erewrite load_body_applied
      with (status := "1") (i := "2") (idx := 1%nat) (scale := F64.zero);
      try reflexivity; try discriminate;
      try (numerals; reflexivity); simpl; lia. }
  split; [reflexivity|].
  split; [reflexivity|].
  split; [reflexivity|].
  split; [reflexivity|].
  split.
  { unfold _parse_nontransformer_branches, r4. rewrite next_then_loop.
    rewrite (enter_rows _ t4 [] eq_refl) by (repeat constructor).
    unfold Sample.branch_rows. cbn [run_rows].
    erewrite (branch_body_found py_float _ _ _ 0%nat [] "1" "2" 0%nat 1%nat);
      try reflexivity; numerals; reflexivity. }
  reflexivity.
Qed.

End RoundTrip.

(** [round_trip_sections] at the sample [float]. *)
Lemma round_trip_sections_witness :
  reads_numerals Sample.float_of_literal /\
  exists r1 buses busmap r2 bus' r3 r4 brch,
    _parse_header Sample.float_of_literal Sample.round_trip_rows =
      Return (F64.of_Z 100, r1) /\
    outcome (_parse_buses Sample.float_of_literal r1 30) =
      Return (buses, busmap, r2) /\
    length buses = 2%nat /\
    outcome (_parse_loads Sample.float_of_literal r2 buses busmap 30) =
      Return (bus', r3) /\
    length bus' = 2%nat /\
    cell bus' 1 2 = Return (F64.of_Z 10) /\
    cell bus' 1 3 = Return (F64.of_Z 5) /\
    outcome (_parse_generators Sample.float_of_literal r3 busmap) =
      Return ([], r4) /\
    outcome (_parse_nontransformer_branches Sample.float_of_literal r4 bus'
               busmap) = Return ([brch], []) /\
    brch !! 0%nat = Some (F64.of_Z 1).
Proof.
  split.
  - exact float_of_literal_reads_numerals.
  - exact (round_trip_sections Sample.float_of_literal
             float_of_literal_reads_numerals).
Defined.

(** C1 as stated fails: on the round-trip file, whose rows are those
    of the scenario, [_parse_file] raises [TypeError] instead of
    returning a case; and the from-bus field the branch reader yields
    for the branch from bus 1 is the bus number 1, not the row index
    0. *)
Lemma round_trip_counterexample :
  Sample.csv "," Sample.round_trip = Sample.round_trip_rows /\
  outcome (_parse_file Sample.float_of_literal Sample.csv
             (Some Sample.round_trip) None None) = Raise TypeError /\
  exists brch,
    outcome (_parse_nontransformer_branches Sample.float_of_literal
               (Sample.branch_rows ++ [["0 / END OF BRANCH DATA"]])%list
               Sample.bus_table Sample.bus_index) = Return ([brch], []) /\
    brch !! 0%nat = Some (F64.of_Z 1) /\
    F64.eqb (F64.of_Z 1) F64.zero = false.
Proof.
  split; [reflexivity|]. split; [vm_compute; reflexivity|].
  eexists. split; [vm_compute; reflexivity|]. split; reflexivity.
Qed.

(** ** Further facts: what a reader that returns has read *)

Lemma L_bind_Return_inv {A B : Type} (m : L A) (k : A -> L B) (b : B) :
  outcome (m ≫= k) = Return b ->
  exists a, outcome m = Return a /\ outcome (k a) = Return b.
Proof.
  destruct m as [l [a|e]]; unfold mbind, L_bind.
  - destruct (k a) as [l' o] eqn:Hk. simpl. intros ->.
    exists a. rewrite Hk. split; reflexivity.
  - discriminate.
Qed.

Lemma lift_Return_inv {A : Type} (r : result A) (a : A) :
  outcome (lift r) = Return a -> r = Return a.
Proof. intros H. exact H. Qed.

Lemma run_rows_app {A : Type} (body : row -> nat -> A -> L A)
    (rows1 rows2 : list row) :
  forall acc c acc' c',
    outcome (run_rows body (rows1 ++ rows2)%list acc c) = Return (acc', c') ->
    exists acc1,
      outcome (run_rows body rows1 acc c) = Return (acc1, (c + length rows1)%nat) /\
      outcome (run_rows body rows2 acc1 (c + length rows1)%nat) =
        Return (acc', c').
Proof.
  induction rows1 as [|r rows1 IH]; intros acc c acc' c' H.
  - exists acc. simpl. rewrite Nat.add_0_r. split; [reflexivity | exact H].
  - simpl app in H. cbn [run_rows] in H.
    apply L_bind_Return_inv in H as (acc0 & Hbody & H).
    destruct (IH _ _ _ _ H) as (acc1 & H1 & H2).
    exists acc1. cbn [run_rows]. rewrite (outcome_bind_Return _ _ _ Hbody).
    simpl length. replace (c + S (length rows1))%nat with (S c + length rows1)%nat by lia.
    split; assumption.
Qed.

Lemma run_rows_invariant {A : Type} (body : row -> nat -> A -> L A)
    (P : nat -> A -> Prop) :
  (forall r c acc acc',
     P c acc -> outcome (body r c acc) = Return acc' -> P (S c) acc') ->
  forall rows acc c acc' c',
    P c acc ->
    outcome (run_rows body rows acc c) = Return (acc', c') ->
    c' = (c + length rows)%nat /\ P c' acc'.
Proof.
  intros Hstep rows. induction rows as [|r rows IH]; intros acc c acc' c' HP H.
  - simpl in H. injection H as <- <-. simpl. rewrite Nat.add_0_r. auto.
  - cbn [run_rows] in H. apply L_bind_Return_inv in H as (acc0 & Hbody & H).
    destruct (IH _ _ _ _ (Hstep _ _ _ _ HP Hbody) H) as [-> HP'].
    split; [simpl; lia | exact HP'].
Qed.

Lemma section_loop_returns {A : Type} (body : row -> nat -> A -> L A) :
  forall reader data acc c acc' c' reader',
    outcome (section_loop body reader data acc c) = Return (acc', c', reader') ->
    exists rows term,
      data :: reader = (rows ++ term :: reader')%list /\
      Forall data_row rows /\
      terminator_row term /\
      outcome (run_rows body rows acc c) = Return (acc', c').
Proof.
  induction reader as [|data' reader IH]; intros data acc c acc' c' reader' H;
    rewrite section_loop_eq in H;
    apply L_bind_Return_inv in H as (go & Hgo & H);
    apply lift_Return_inv in Hgo; destruct go.
  - apply L_bind_Return_inv in H as (acc0 & _ & H). discriminate.
  - injection H as <- <- <-. exists [], data. repeat split; auto.
  - apply L_bind_Return_inv in H as (acc0 & Hbody & H).
    unfold enter in H. simpl next in H. rewrite L_bind_lift in H.
    destruct (IH _ _ _ _ _ _ H) as (rows & term & Heq & Hrows & Hterm & Hrun).
    exists (data :: rows), term. rewrite Heq. repeat split; auto.
    cbn [run_rows]. rewrite (outcome_bind_Return _ _ _ Hbody). exact Hrun.
  - injection H as <- <- <-. exists [], data. repeat split; auto.
Qed.

Lemma enter_returns {A : Type} (body : row -> nat -> A -> L A) :
  forall reader acc c acc' c' reader',
    outcome (enter body reader acc c) = Return (acc', c', reader') ->
    exists rows term,
      reader = (rows ++ term :: reader')%list /\
      Forall data_row rows /\
      terminator_row term /\
      outcome (run_rows body rows acc c) = Return (acc', c').
Proof.
  intros [|data reader] acc c acc' c' reader' H; unfold enter in H.
  - discriminate.
  - simpl next in H. rewrite L_bind_lift in H.
    apply section_loop_returns in H. exact H.
Qed.

(** ** Further facts: the bus reader *)

Ltac invert_results :=
  repeat match goal with
         | H : context [match ?x with Return _ => _ | Raise _ => _ end] |- _ =>
             lazymatch x with
             | context [match _ with Return _ => _ | Raise _ => _ end] => fail
             | _ => destruct x eqn:?; cbv beta iota in H; try discriminate
             end
         end.

Section BusReader.

Variable py_float : string -> option float.

Lemma bus_record_defaults version i busdata rec :
  bus_record py_float version i busdata = Return rec ->
  bus_defaults rec /\
  (py_in version [29; 30]%Z = false ->
   rec !! 4%nat = Some F64.zero /\ rec !! 5%nat = Some F64.zero) /\
  (py_in version [29; 30]%Z = false -> py_in version [31; 32]%Z = false ->
   rec !! 6%nat = Some F64.zero /\ rec !! 7%nat = Some F64.zero /\
   rec !! 8%nat = Some F64.zero /\ rec !! 10%nat = Some F64.zero).
Proof.
  unfold bus_record. intros H.
  destruct (py_in version [29; 30]%Z), (py_in version [31; 32]%Z);
    cbv [mbind result_bind mret result_ret] in H;
    invert_results; injection H as <-;
    (split; [repeat split; reflexivity|]);
    split; intros; try discriminate; repeat split; reflexivity.
Qed.

Lemma bus_entry_row version r i name rec :
  bus_entry py_float version r = Return (i, name, rec) ->
  row_keys r = [i; name] /\ bus_record py_float version i r = Return rec.
Proof.
  unfold bus_entry. destruct r as [|i' [|f1 more]]; try discriminate.
  simpl. destruct (bus_record py_float version i' (i' :: f1 :: more))
    as [rec'|] eqn:Hrec; simpl; [|discriminate].
  intros H. injection H as -> <- ->. split; [reflexivity | exact Hrec].
Qed.

Lemma bus_body_inv version r c buses m buses' m' :
  outcome (bus_body py_float version r c (buses, m)) = Return (buses', m') ->
  exists i name rec,
    bus_entry py_float version r = Return (i, name, rec) /\
    buses' = (buses ++ [rec])%list /\
    m' = <[name := c]> (<[i := c]> m).
Proof.
  unfold bus_body, bus_entry, lift. simpl.
  destruct (field r 0) as [i|]; simpl; [|discriminate].
  destruct (field r 1) as [f1|]; simpl; [|discriminate].
  destruct (bus_record py_float version i r) as [rec|]; simpl; [|discriminate].
  intros H. injection H as <- <-. eauto 6.
Qed.

Lemma run_rows_buses_inv version rows :
  forall buses m c buses' m' c',
    outcome (run_rows (bus_body py_float version) rows (buses, m) c) =
      Return (buses', m', c') ->
    exists entries,
      Forall2 (fun r e => bus_entry py_float version r = Return e) rows entries /\
      buses' = (buses ++ map snd entries)%list /\
      m' = register c entries m.
Proof.
  induction rows as [|r rows IH]; intros buses m c buses' m' c' H.
  - simpl in H. injection H as <- <- <-. exists []. simpl.
    rewrite app_nil_r. repeat split. constructor.
  - cbn [run_rows] in H. apply L_bind_Return_inv in H as ([buses0 m0] & Hbody & H).
    apply bus_body_inv in Hbody as (i & name & rec & Hentry & -> & ->).
    destruct (IH _ _ _ _ _ _ H) as (entries & Hent & -> & ->).
    exists ((i, name, rec) :: entries). split; [constructor; assumption|].
    simpl. rewrite <- app_assoc. split; reflexivity.
Qed.

Lemma parse_buses_returns reader version buses busmap reader' :
  outcome (_parse_buses py_float reader version) =
    Return (buses, busmap, reader') ->
  exists rows term entries,
    reader = (rows ++ term :: reader')%list /\
    Forall data_row rows /\
    terminator_row term /\
    Forall2 (fun r e => bus_entry py_float version r = Return e) rows entries /\
    buses = map snd entries /\
    busmap = register 0 entries ∅.
Proof.
  unfold _parse_buses. rewrite next_then_loop. intros H.
  apply L_bind_Return_inv in H as ([[[buses0 busmap0] c] reader0] & Hloop & H).
  injection H as <- <- <-.
  apply enter_returns in Hloop as (rows & term & -> & Hrows & Hterm & Hrun).
  apply run_rows_buses_inv in Hrun as (entries & Hent & -> & ->).
  exists rows, term, entries. repeat split; assumption.
Qed.

End BusReader.

Lemma register_range es :
  forall c m key idx,
    register c es m !! key = Some idx ->
    m !! key = Some idx \/ (c <= idx < c + length es)%nat.
Proof.
  induction es as [|[[i name] rec] es IH]; intros c m key idx H; simpl in *.
  - left. exact H.
  - apply IH in H as [H | H]; [|right; lia].
    destruct (decide (name = key)) as [->|Hn].
    + rewrite lookup_insert_eq in H. injection H as <-. right. lia.
    + rewrite lookup_insert_ne in H by exact Hn.
      destruct (decide (i = key)) as [->|Hi].
      * rewrite lookup_insert_eq in H. injection H as <-. right. lia.
      * rewrite lookup_insert_ne in H by exact Hi. left. exact H.
Qed.

Lemma register_dom es :
  forall c m key,
    is_Some (register c es m !! key) <-> is_Some (m !! key) \/ key ∈ keys es.
Proof.
  induction es as [|[[i name] rec] es IH]; intros c m key; simpl.
  - unfold keys. simpl. rewrite elem_of_nil. tauto.
  - rewrite IH. unfold keys. simpl. rewrite !elem_of_cons.
    rewrite !lookup_insert_is_Some. 
    clear IH. destruct (decide (name = key)), (decide (i = key)); intuition congruence.
Qed.

Lemma register_last es :
  forall c m k e key,
    es !! k = Some e ->
    key ∈ [e.1.1; e.1.2] ->
    (forall j e', (k < j)%nat -> es !! j = Some e' -> key ∉ [e'.1.1; e'.1.2]) ->
    register c es m !! key = Some (c + k)%nat.
Proof.
  induction es as [|[[i name] rec] es IH]; intros c m k e key Hk Hkey Hlater.
  - discriminate.
  - destruct k as [|k]; simpl in Hk.
    + injection Hk as <-. simpl in Hkey. simpl.
      rewrite register_other.
      * rewrite Nat.add_0_r.
        destruct (decide (name = key)) as [->|Hn];
          [apply lookup_insert_eq|].
        rewrite lookup_insert_ne by exact Hn.
        apply elem_of_cons in Hkey as [->|Hkey]; [apply lookup_insert_eq|].
        apply elem_of_cons in Hkey as [->|Hkey]; [contradiction|].
        apply elem_of_nil in Hkey. contradiction.
      * unfold keys. intros Hin. apply list_elem_of_In, in_flat_map in Hin
          as (e' & He' & Hin).
        apply list_elem_of_In, list_elem_of_lookup in He' as (j & Hj).
        apply (Hlater (S j) e' ltac:(lia) Hj).
        apply list_elem_of_In. exact Hin.
    + simpl. rewrite (IH (S c) _ k e key Hk Hkey).
      * f_equal. lia.
      * intros j e' Hj He'. apply (Hlater (S j) e' ltac:(lia) He').
Qed.

Section BusReaderFacts.

Variable py_float : string -> option float.

(** X1.  Whenever the bus reader returns, the reader it was given
    consists of data rows, one terminator row and the rows it hands
    back, and the bus table has one row per data row: the reader stops
    at the first terminator row and reads nothing after it.  The loop
    test compares the first field with ["0"] only, so that a row
    starting with [Q] is a data row like any other. *)
Theorem bus_reader_stops_at_terminator reader version buses busmap reader' :
  outcome (_parse_buses py_float reader version) =
    Return (buses, busmap, reader') ->
  exists rows term,
    reader = (rows ++ term :: reader')%list /\
    Forall data_row rows /\
    terminator_row term /\
    length buses = length rows.
Proof.
  intros H.
  apply parse_buses_returns in H
    as (rows & term & entries & -> & Hrows & Hterm & Hent & -> & _).
  exists rows, term. repeat split; try assumption.
  rewrite length_map. symmetry. eapply Forall2_length. exact Hent.
Qed.

(** X2.  Every index held by the bus index table that the bus reader
    returns is a row index of the bus table it returns with it. *)
Theorem bus_index_in_range reader version buses busmap reader' :
  outcome (_parse_buses py_float reader version) =
    Return (buses, busmap, reader') ->
  forall key idx, busmap !! key = Some idx -> (idx < length buses)%nat.
Proof.
  intros H key idx Hkey.
  apply parse_buses_returns in H
    as (rows & term & entries & _ & _ & _ & _ & -> & ->).
  apply register_range in Hkey as [Hkey | Hkey].
  - rewrite lookup_empty in Hkey. discriminate.
  - rewrite length_map. lia.
Qed.

(** X3.  The bus index table that the bus reader returns holds a key
    if and only if that key is the id field or the quote-stripped name
    field of one of the data rows read. *)
Theorem bus_index_keys reader version buses busmap reader' :
  outcome (_parse_buses py_float reader version) =
    Return (buses, busmap, reader') ->
  exists rows term,
    reader = (rows ++ term :: reader')%list /\
    forall key,
      is_Some (busmap !! key) <-> exists r, r ∈ rows /\ key ∈ row_keys r.
Proof.
  intros H.
  apply parse_buses_returns in H
    as (rows & term & entries & -> & _ & _ & Hent & _ & ->).
  exists rows, term. split; [reflexivity|]. intros key.
  rewrite register_dom, lookup_empty. unfold keys. split.
  - intros [[x Hx] | Hin]; [discriminate|].
    apply list_elem_of_In, in_flat_map in Hin as (e & He & Hin).
    apply list_elem_of_In, list_elem_of_lookup in He as (k & Hk).
    destruct (Forall2_lookup_r _ _ _ _ _ Hent Hk) as (r & Hr & Hentry).
    exists r. split; [eapply list_elem_of_lookup_2; exact Hr|].
    destruct e as [[i name] rec].
    apply bus_entry_row in Hentry as [-> _]. apply list_elem_of_In. exact Hin.
  - intros (r & Hr & Hkey). right.
    apply list_elem_of_lookup in Hr as (k & Hk).
    destruct (Forall2_lookup_l _ _ _ _ _ Hent Hk) as ([[i name] rec] & He & Hentry).
    apply bus_entry_row in Hentry as [Hkeys _]. rewrite Hkeys in Hkey.
    apply list_elem_of_In, in_flat_map. exists (i, name, rec).
    split; [apply list_elem_of_In; eapply list_elem_of_lookup_2; exact He|].
    apply list_elem_of_In. exact Hkey.
Qed.

(** X4.  Whatever the revision, every bus record returned has 13
    fields, load fields 0 and voltage limits 1.1 and 0.9; for a revision
    other than 29 and 30 its shunt fields are 0 as well. *)
Theorem bus_table_defaults reader version buses busmap reader' :
  outcome (_parse_buses py_float reader version) =
    Return (buses, busmap, reader') ->
  Forall bus_defaults buses /\
  (py_in version [29; 30]%Z = false ->
   Forall (fun rec => rec !! 4%nat = Some F64.zero /\
                      rec !! 5%nat = Some F64.zero) buses).
Proof.
  intros H.
  apply parse_buses_returns in H
    as (rows & term & entries & _ & _ & _ & Hent & -> & _).
  assert (Hall : Forall (fun e : string * string * list float =>
                   bus_defaults e.2 /\
                   (py_in version [29; 30]%Z = false ->
                    e.2 !! 4%nat = Some F64.zero /\
                    e.2 !! 5%nat = Some F64.zero)) entries).
  { clear -Hent. induction Hent as [|r [[i name] rec] rows entries Hr _ IH];
      constructor; [|exact IH].
    apply bus_entry_row in Hr as [_ Hrec].
    apply bus_record_defaults in Hrec as (Hd & H45 & _). split; assumption. }
  split.
  - apply Forall_fmap. eapply Forall_impl; [exact Hall|]. intros e [He _]. exact He.
  - intros Hv. apply Forall_fmap. eapply Forall_impl; [exact Hall|].
    intros e [_ He]. exact (He Hv).
Qed.

(** X5.  A key of row k of a bus section that no later row bears is
    resolved by [_busidx] to k, whether written with quotes or without,
    and nothing is logged: of several buses sharing an id or a name, the
    last one is found. *)
Theorem bus_lookup_last_wins version rows term rest buses busmap reader' k r key :
  Forall data_row rows ->
  terminator_row term ->
  outcome (_parse_buses py_float (rows ++ term :: rest)%list version) =
    Return (buses, busmap, reader') ->
  rows !! k = Some r ->
  key ∈ row_keys r ->
  (forall j r', (k < j)%nat -> rows !! j = Some r' -> key ∉ row_keys r') ->
  (k < length buses)%nat /\
  forall q, PyStr.strip_quote q = key ->
    _busidx q busmap = Run [] (Return (Some k)).
Proof.
  intros Hrows Hterm H Hk Hkey Hlater.
  unfold _parse_buses in H. rewrite next_then_loop in H.
  rewrite (enter_rows _ _ _ Hterm _ _ _ Hrows) in H.
  apply L_bind_Return_inv in H as ([[[buses0 busmap0] c] reader0] & Hloop & H).
  injection H as <- <- <-.
  apply L_bind_Return_inv in Hloop as ([[buses1 busmap1] c1] & Hrun & Hloop).
  injection Hloop as <- <- <- <-.
  apply run_rows_buses_inv in Hrun as (entries & Hent & -> & ->).
  destruct (Forall2_lookup_l _ _ _ _ _ Hent Hk) as ([[i name] rec] & He & Hentry).
  apply bus_entry_row in Hentry as [Hkeys _]. rewrite Hkeys in Hkey.
  assert (Hlook : register 0 entries ∅ !! key = Some k).
  { apply (register_last entries 0%nat ∅ k (i, name, rec) key He Hkey).
    intros j [[i' name'] rec'] Hj He'.
    destruct (Forall2_lookup_r _ _ _ _ _ Hent He') as (r' & Hr' & Hentry').
    apply bus_entry_row in Hentry' as [Hkeys' _]. simpl. rewrite <- Hkeys'.
    apply (Hlater j r' Hj Hr'). }
  split.
  - simpl. rewrite length_map. eapply lookup_lt_Some. exact He.
  - intros q <-. unfold _busidx. rewrite Hlook. reflexivity.
Qed.

End BusReaderFacts.

(** ** Further facts: the load reader *)

Lemma busidx_outcome i busmap :
  outcome (_busidx i busmap) = Return (busmap !! PyStr.strip_quote i).
Proof.
  unfold _busidx. destruct (busmap !! PyStr.strip_quote i); reflexivity.
Qed.

Lemma set_cell_inv (t : table) r c v t' :
  set_cell t r c v = Return t' ->
  exists line,
    t !! r = Some line /\ (c < length line)%nat /\
    t' = <[r := <[c := v]> line]> t.
Proof.
  unfold set_cell. destruct (t !! r) as [line|]; [|discriminate].
  destruct (c <? length line)%nat eqn:Hc; [|discriminate].
  intros H. injection H as <-. apply Nat.ltb_lt in Hc. eauto.
Qed.

Section LoadReader.

Variable py_float : string -> option float.

Lemma load_body_inv busmap version r c (bus bus' : table) :
  outcome (load_body py_float busmap version r c bus) = Return bus' ->
  exists status i,
    field r 2 = Return status /\
    field r 0 = Return i /\
    ((PyStr.truthy status = false \/ busmap !! PyStr.strip_quote i = None) /\
     bus' = bus
     \/
     exists idx line pl ql,
       PyStr.truthy status = true /\
       busmap !! PyStr.strip_quote i = Some idx /\
       bus !! idx = Some line /\
       (3 < length line)%nat /\
       float_at py_float r 5 = Return pl /\
       float_at py_float r 6 = Return ql /\
       bus' = <[idx := <[3%nat := ql]> (<[2%nat := pl]> line)]> bus).
Proof.
  unfold load_body. intros H.
  apply L_bind_Return_inv in H as (status & H2 & H).
  apply L_bind_Return_inv in H as (i & H0 & H).
  apply L_bind_Return_inv in H as (oidx & Hidx & H).
  rewrite busidx_outcome in Hidx. injection Hidx as <-.
  exists status, i. split; [exact H2|]. split; [exact H0|].
  destruct (PyStr.truthy status) eqn:Hst.
  - destruct (busmap !! PyStr.strip_quote i) as [idx|] eqn:Hmap.
    + right.
      apply L_bind_Return_inv in H as (pl & Hpl & H).
      apply L_bind_Return_inv in H as (bus1 & H1 & H).
      apply L_bind_Return_inv in H as (ql & Hql & H).
      apply L_bind_Return_inv in H as (bus2 & Hb2 & H).
      apply L_bind_Return_inv in H as (Ip & _ & H).
      apply L_bind_Return_inv in H as (Iq & _ & H).
      apply L_bind_Return_inv in H as (u1 & _ & H).
      apply L_bind_Return_inv in H as (Yp & _ & H).
      apply L_bind_Return_inv in H as (Yq & _ & H).
      apply L_bind_Return_inv in H as (u2 & _ & H).
      apply L_bind_Return_inv in H as (u3 & _ & H).
      injection H as <-.
      apply set_cell_inv in H1 as (line & Hline & Hlen & ->).
      apply set_cell_inv in Hb2 as (line' & Hline' & Hlen' & ->).
      assert (Hidx : (idx < length bus)%nat)
        by (eapply lookup_lt_Some; exact Hline).
      rewrite list_lookup_insert_eq in Hline' by exact Hidx.
      injection Hline' as <-. rewrite length_insert in Hlen'.
      rewrite list_insert_insert_eq.
      exists idx, line, pl, ql. repeat split; assumption.
    + left. injection H as <-. auto.
  - left. destruct (busmap !! PyStr.strip_quote i); injection H as <-; auto.
Qed.

Lemma same_but_loads_refl t : same_but_loads t t.
Proof. apply Forall2_same_length_lookup. split; [reflexivity|].
  intros k l l' H1 H2. rewrite H1 in H2. injection H2 as <-. auto. Qed.

Lemma same_but_loads_trans t1 t2 t3 :
  same_but_loads t1 t2 -> same_but_loads t2 t3 -> same_but_loads t1 t3.
Proof.
  unfold same_but_loads. intros H12 H23.
  eapply Forall2_trans; [|exact H12|exact H23].
  intros l1 l2 l3 [Hl Hc] [Hl' Hc']. split; [congruence|].
  intros c H2 H3. rewrite Hc', Hc by assumption. reflexivity.
Qed.

Lemma same_but_loads_update (t : table) idx line pl ql :
  t !! idx = Some line ->
  same_but_loads t (<[idx := <[3%nat := ql]> (<[2%nat := pl]> line)]> t).
Proof.
  intros Hline. apply Forall2_same_length_lookup.
  split; [rewrite length_insert; reflexivity|].
  intros k l l' Hl Hl'.
  destruct (decide (idx = k)) as [->|Hne].
  - rewrite list_lookup_insert_eq in Hl' by (eapply lookup_lt_Some; exact Hl).
    injection Hl' as <-. rewrite Hline in Hl. injection Hl as <-.
    split; [rewrite !length_insert; reflexivity|].
    intros c H2 H3. rewrite !list_lookup_insert_ne by congruence. reflexivity.
  - rewrite list_lookup_insert_ne in Hl' by exact Hne.
    rewrite Hl in Hl'. injection Hl' as <-. auto.
Qed.

Lemma load_body_same busmap version r c (bus bus' : table) :
  outcome (load_body py_float busmap version r c bus) = Return bus' ->
  same_but_loads bus bus'.
Proof.
  intros H. apply load_body_inv in H as (status & i & _ & _ & [[_ ->] | H]).
  - apply same_but_loads_refl.
  - destruct H as (idx & line & pl & ql & _ & _ & Hline & _ & _ & _ & ->).
    apply same_but_loads_update. exact Hline.
Qed.

(** X6.  Whenever the load reader returns, the bus table it returns
    has the rows and row lengths of the one it was given and differs
    from it in columns 2 and 3 at most; and it stopped at the first
    terminator row. *)
Theorem load_reader_touches_loads_only reader (bus : table) busmap version
    (bus' : table) reader' :
  outcome (_parse_loads py_float reader bus busmap version) =
    Return (bus', reader') ->
  same_but_loads bus bus' /\
  exists rows term,
    reader = (rows ++ term :: reader')%list /\
    Forall data_row rows /\
    terminator_row term.
Proof.
  unfold _parse_loads. rewrite next_then_loop. intros H.
  apply L_bind_Return_inv in H as ([[bus0 c] reader0] & Hloop & H).
  injection H as <- <-.
  apply enter_returns in Hloop as (rows & term & -> & Hrows & Hterm & Hrun).
  split; [|eauto].
  apply (run_rows_invariant _ (fun _ t => same_but_loads bus t)) in Hrun
    as [_ Hsame]; [exact Hsame | | apply same_but_loads_refl].
  intros r c0 acc acc' Hacc Hbody.
  eapply same_but_loads_trans; [exact Hacc|].
  eapply load_body_same. exact Hbody.
Qed.

End LoadReader.

Section LoadLast.

Variable py_float : string -> option float.

(** X7.  Loads are not summed.  If the last data row of a load section
    has a non-empty status and a bus that is found, then on return the
    load fields of that bus are the PL and QL of that row, whatever the
    earlier rows held. *)
Theorem load_reader_last_row_wins rows0 r term rest (bus : table) busmap
    version (bus' : table) reader' status i idx pl ql :
  Forall data_row rows0 ->
  data_row r ->
  terminator_row term ->
  outcome (_parse_loads py_float (rows0 ++ r :: term :: rest)%list
             bus busmap version) = Return (bus', reader') ->
  field r 2 = Return status ->
  status <> EmptyString ->
  field r 0 = Return i ->
  busmap !! PyStr.strip_quote i = Some idx ->
  float_at py_float r 5 = Return pl ->
  float_at py_float r 6 = Return ql ->
  cell bus' idx 2 = Return pl /\ cell bus' idx 3 = Return ql.
Proof.
  intros Hrows0 Hr Hterm H H2 Hst H0 Hmap Hpl Hql.
  unfold _parse_loads in H. rewrite next_then_loop in H.
  replace (rows0 ++ r :: term :: rest)%list
    with ((rows0 ++ [r]) ++ term :: rest)%list in H
    by (rewrite <- app_assoc; reflexivity).
  rewrite (enter_rows _ _ _ Hterm) in H
    by (apply Forall_app; split; [exact Hrows0 | repeat constructor; exact Hr]).
  apply L_bind_Return_inv in H as ([[bus0 c] reader0] & Hloop & H).
  injection H as <- <-.
  apply L_bind_Return_inv in Hloop as ([bus1 c1] & Hrun & Hloop).
  injection Hloop as <- <- <-.
  apply run_rows_app in Hrun as (busmid & _ & Hlast).
  cbn [run_rows] in Hlast.
  apply L_bind_Return_inv in Hlast as (bus2 & Hbody & Hlast).
  injection Hlast as <- _.
  apply load_body_inv in Hbody as (status' & i' & H2' & H0' & Hcase).
  rewrite H2 in H2'. injection H2' as <-.
  rewrite H0 in H0'. injection H0' as <-.
  destruct Hcase as [[[Hfalse | Hnone] _] | Happ].
  - destruct status; [contradiction | discriminate].
  - congruence.
  - destruct Happ as (idx' & line & pl' & ql' & _ & Hmap' & Hline & Hlen &
                      Hpl' & Hql' & ->).
    assert (idx' = idx) by congruence. subst idx'.
    assert (pl' = pl) by congruence. assert (ql' = ql) by congruence. subst.
    assert (Hidx : (idx < length busmid)%nat)
      by (eapply lookup_lt_Some; exact Hline).
    unfold cell. rewrite list_lookup_insert_eq by exact Hidx.
    rewrite list_lookup_insert_ne by lia.
    rewrite !list_lookup_insert_eq by (rewrite ?length_insert; lia).
    split; reflexivity.
Qed.

End LoadLast.

(** ** Further facts: the generator and branch readers *)

Section RecordTables.

Variable py_float : string -> option float.

Lemma gen_record_unassigned gendata g :
  gen_record py_float gendata = Return g -> gen_unassigned g.
Proof.
  unfold gen_record. intros H.
  cbv [mbind result_bind mret result_ret] in H.
  invert_results. injection H as <-.
  split; [reflexivity|]. split; [reflexivity|].
  intros k Hk.
  do 21 (destruct k as [|k]; [first [lia | reflexivity]|]). lia.
Qed.

Lemma branch_record_defaults (bus : table) fbus tbus brchdata brch :
  branch_record py_float bus fbus tbus brchdata = Return brch ->
  branch_defaults brch.
Proof.
  unfold branch_record. intros H.
  cbv [mbind result_bind mret result_ret] in H.
  invert_results. injection H as <-. repeat split; reflexivity.
Qed.

Lemma gen_body_inv busmap r c (gens gens' : table) :
  outcome (gen_body py_float busmap r c gens) = Return gens' ->
  (bus_found busmap r = true /\
   exists g, gen_record py_float r = Return g /\ gens' = (gens ++ [g])%list)
  \/
  (bus_found busmap r = false /\ gens' = gens).
Proof.
  unfold gen_body. intros H.
  apply L_bind_Return_inv in H as (i & H0 & H).
  apply L_bind_Return_inv in H as (oidx & Hidx & H).
  rewrite busidx_outcome in Hidx. injection Hidx as <-.
  destruct r as [|i' more]; [discriminate|].
  injection H0 as ->. simpl bus_found.
  destruct (busmap !! PyStr.strip_quote i) as [idx|] eqn:Hmap.
  - left. apply L_bind_Return_inv in H as (g & Hg & H). injection H as <-.
    split; [apply bool_decide_eq_true_2; eauto | eauto].
  - right. injection H as <-.
    split; [apply bool_decide_eq_false_2; intros [x Hx]; discriminate
           | reflexivity].
Qed.

Lemma run_rows_generators_inv busmap rows :
  forall (gens gens' : table) c c',
    outcome (run_rows (gen_body py_float busmap) rows gens c) =
      Return (gens', c') ->
    exists recs,
      Forall2 (fun r g => gen_record py_float r = Return g)
              (List.filter (bus_found busmap) rows) recs /\
      gens' = (gens ++ recs)%list.
Proof.
  induction rows as [|r rows IH]; intros gens gens' c c' H.
  - injection H as <- _. exists []. rewrite app_nil_r. split; constructor.
  - cbn [run_rows] in H. apply L_bind_Return_inv in H as (gens0 & Hbody & H).
    destruct (IH _ _ _ _ H) as (recs & Hrecs & ->).
    simpl List.filter.
    apply gen_body_inv in Hbody as [[Hf (g & Hg & ->)] | [Hf ->]]; rewrite Hf.
    + exists (g :: recs). split; [constructor; assumption|].
      rewrite <- app_assoc. reflexivity.
    + exists recs. split; [exact Hrecs | reflexivity].
Qed.

(** X10.  Whenever the generator reader returns, it stopped at the
    first terminator row and returns one record per data row whose bus
    is found; every record has 21 fields, of which field 0 and fields
    10 to 20 are 0 (the bus field is never assigned). *)
Theorem generator_reader_returns reader busmap (gens : table) reader' :
  outcome (_parse_generators py_float reader busmap) = Return (gens, reader') ->
  Forall gen_unassigned gens /\
  exists rows term,
    reader = (rows ++ term :: reader')%list /\
    Forall data_row rows /\
    terminator_row term /\
    length gens = length (List.filter (bus_found busmap) rows).
Proof.
  unfold _parse_generators. rewrite next_then_loop. intros H.
  apply L_bind_Return_inv in H as ([[gens0 c] reader0] & Hloop & H).
  injection H as <- <-.
  apply enter_returns in Hloop as (rows & term & -> & Hrows & Hterm & Hrun).
  apply run_rows_generators_inv in Hrun as (recs & Hrecs & ->). simpl.
  split.
  - clear -Hrecs. induction Hrecs as [|r g rs gs Hg _ IH]; constructor;
      [eapply gen_record_unassigned; exact Hg | exact IH].
  - exists rows, term. repeat split; try assumption.
    symmetry. eapply Forall2_length. exact Hrecs.
Qed.

Lemma branch_body_inv (bus : table) busmap r c (branches branches' : table) :
  outcome (branch_body py_float bus busmap r c branches) = Return branches' ->
  (2 <= length r)%nat /\
  match branch_ends busmap r with
  | Some (fbus, tbus) =>
      exists brch,
        branch_record py_float bus fbus tbus r = Return brch /\
        branches' = (branches ++ [brch])%list
  | None => branches' = branches
  end.
Proof.
  unfold branch_body. intros H.
  apply L_bind_Return_inv in H as (f0 & H0 & H).
  apply L_bind_Return_inv in H as (ofbus & Hf & H).
  apply L_bind_Return_inv in H as (f1 & H1 & H).
  apply L_bind_Return_inv in H as (otbus & Ht & H).
  rewrite busidx_outcome in Hf, Ht. injection Hf as <-. injection Ht as <-.
  destruct r as [|f0' [|f1' more]]; try discriminate.
  injection H0 as ->. injection H1 as ->.
  split; [simpl; lia|]. simpl branch_ends.
  destruct (busmap !! PyStr.strip_quote f0) as [fbus|],
           (busmap !! PyStr.strip_quote f1) as [tbus|];
    try (injection H as <-; reflexivity).
  apply L_bind_Return_inv in H as (brch & Hb & H). injection H as <-. eauto.
Qed.

Lemma run_rows_branches_inv (bus : table) busmap rows :
  forall (branches branches' : table) c c',
    outcome (run_rows (branch_body py_float bus busmap) rows branches c) =
      Return (branches', c') ->
    exists recs,
      Forall2 (fun '(fbus, tbus, r) brch =>
                 branch_record py_float bus fbus tbus r = Return brch)
              (resolved_branches busmap rows) recs /\
      branches' = (branches ++ recs)%list.
Proof.
  unfold resolved_branches.
  induction rows as [|r rows IH]; intros branches branches' c c' H.
  - injection H as <- _. exists []. rewrite app_nil_r. split; constructor.
  - cbn [run_rows] in H. apply L_bind_Return_inv in H as (b0 & Hbody & H).
    destruct (IH _ _ _ _ H) as (recs & Hrecs & ->).
    apply branch_body_inv in Hbody as [_ Hbody]. simpl omap.
    destruct (branch_ends busmap r) as [[fbus tbus]|]; simpl.
    + destruct Hbody as (brch & Hb & ->).
      exists (brch :: recs). split; [constructor; assumption|].
      rewrite <- app_assoc. reflexivity.
    + subst b0. exists recs. split; [exact Hrecs | reflexivity].
Qed.

(** X11.  Whenever the branch reader returns, it stopped at the first
    terminator row and returns one record per data row both of whose
    buses are found; every record has 13 fields, with ratio and angle 0
    and angle limits -360 and 360. *)
Theorem branch_reader_returns reader (bus : table) busmap (branches : table)
    reader' :
  outcome (_parse_nontransformer_branches py_float reader bus busmap) =
    Return (branches, reader') ->
  Forall branch_defaults branches /\
  exists rows term,
    reader = (rows ++ term :: reader')%list /\
    Forall data_row rows /\
    terminator_row term /\
    length branches = length (resolved_branches busmap rows).
Proof.
  unfold _parse_nontransformer_branches. rewrite next_then_loop. intros H.
  apply L_bind_Return_inv in H as ([[b0 c] reader0] & Hloop & H).
  injection H as <- <-.
  apply enter_returns in Hloop as (rows & term & -> & Hrows & Hterm & Hrun).
  apply run_rows_branches_inv in Hrun as (recs & Hrecs & ->). simpl.
  split.
  - clear -Hrecs.
    induction Hrecs as [|[[fbus tbus] r] brch rs bs Hb _ IH]; constructor;
      [eapply branch_record_defaults; exact Hb | exact IH].
  - exists rows, term. repeat split; try assumption.
    symmetry. eapply Forall2_length. exact Hrecs.
Qed.

End RecordTables.

Section LoadFrame.

Variable py_float : string -> option float.

Lemma load_body_total busmap version r c (bus : table) :
  load_row_readable py_float version r ->
  Forall (fun l : list float => length l = 13%nat) bus ->
  (forall key idx, busmap !! key = Some idx -> (idx < length bus)%nat) ->
  exists bus' : table,
    outcome (load_body py_float busmap version r c bus) = Return bus' /\
    Forall (fun l : list float => length l = 13%nat) bus' /\
    length bus' = length bus.
Proof.
  intros ([status H2] & Hfloats & Hscale) Hshape Hrange.
  assert (H0 : exists i, r !! 0%nat = Some i).
  { apply lookup_lt_is_Some. apply lookup_lt_Some in H2. lia. }
  destruct H0 as [i H0].
  assert (Hf2 : field r 2 = Return status) by (unfold field; rewrite H2; reflexivity).
  assert (Hf0 : field r 0 = Return i) by (unfold field; rewrite H0; reflexivity).
  destruct (busmap !! PyStr.strip_quote i) as [idx|] eqn:Hmap.
  - destruct status as [|x status].
    + exists bus. rewrite (load_body_empty_status _ _ _ _ _ _ _ Hf2 Hf0). auto.
    + destruct (lookup_lt_is_Some_2 bus idx (Hrange _ _ Hmap)) as [line Hline].
      assert (Hlen : length line = 13%nat)
        by (eapply (proj1 (Forall_lookup _ _) Hshape); exact Hline).
      destruct (Hfloats 5%nat ltac:(repeat constructor)) as [pl Hpl].
      destruct (Hfloats 6%nat ltac:(repeat constructor)) as [ql Hql].
      destruct (Hfloats 7%nat ltac:(repeat constructor)) as [Ip HIp].
      destruct (Hfloats 8%nat ltac:(repeat constructor)) as [Iq HIq].
      destruct (Hfloats 9%nat ltac:(repeat constructor)) as [Yp HYp].
      destruct (Hfloats 10%nat ltac:(repeat constructor)) as [Yq HYq].
      assert (Hsc : exists scale, version = 32%Z ->
                      float_at py_float r 12 = Return scale).
      { destruct (decide (version = 32%Z)) as [Hv|Hv].
        - destruct (Hscale Hv) as [scale Hs]. exists scale. auto.
        - exists F64.zero. intros; contradiction. }
      destruct Hsc as [scale Hsc].
      eexists.
      rewrite (load_body_applied py_float busmap version r c bus _ i idx line
                 pl ql Ip Iq Yp Yq Hf2 ltac:(discriminate) Hf0 Hmap Hline
                 ltac:(lia) Hpl Hql HIp HIq HYp HYq scale Hsc).
      simpl. split; [reflexivity|]. split; [|apply length_insert].
      apply Forall_insert; [exact Hshape|]. rewrite !length_insert. exact Hlen.
  - exists bus. rewrite (load_body_unresolved _ _ _ _ _ _ _ _ Hf2 Hf0 Hmap). auto.
Qed.

Lemma run_rows_loads_total busmap version rows :
  Forall (load_row_readable py_float version) rows ->
  forall (bus : table) c,
    Forall (fun l : list float => length l = 13%nat) bus ->
    (forall key idx, busmap !! key = Some idx -> (idx < length bus)%nat) ->
    exists bus' : table,
      outcome (run_rows (load_body py_float busmap version) rows bus c) =
        Return (bus', (c + length rows)%nat).
Proof.
  induction 1 as [|r rows Hr _ IH]; intros bus c Hshape Hrange.
  - exists bus. simpl. rewrite Nat.add_0_r. reflexivity.
  - destruct (load_body_total busmap version r c bus Hr Hshape Hrange)
      as (bus1 & Hbody & Hshape1 & Hlen1).
    destruct (IH bus1 (S c) Hshape1) as (bus' & Hrun).
    { intros key idx Hkey. rewrite Hlen1. eauto. }
    exists bus'. cbn [run_rows]. rewrite (outcome_bind_Return _ _ _ Hbody).
    rewrite Hrun. simpl. do 2 f_equal. lia.
Qed.

(** X9.  The load reader cannot fail on what the bus reader returns:
    given the bus table and bus index table of a bus reader that
    returned, it returns on every load section of readable data rows
    followed by a terminator row, handing back the rows after it. *)
Theorem load_reader_after_bus_reader reader0 version (buses : table) busmap
    reader rows term rest :
  outcome (_parse_buses py_float reader0 version) =
    Return (buses, busmap, reader) ->
  Forall data_row rows ->
  terminator_row term ->
  Forall (load_row_readable py_float version) rows ->
  exists bus' : table,
    outcome (_parse_loads py_float (rows ++ term :: rest)%list buses busmap
               version) = Return (bus', rest).
Proof.
  intros Hbuses Hrows Hterm Hok.
  assert (Hrange : forall key idx,
             busmap !! key = Some idx -> (idx < length buses)%nat).
  { intros key idx Hkey.
    pose proof Hbuses as H.
    apply parse_buses_returns in H
      as (rows0 & term0 & entries & _ & _ & _ & _ & -> & ->).
    apply register_range in Hkey as [Hkey | Hkey].
    - rewrite lookup_empty in Hkey. discriminate.
    - rewrite length_map. lia. }
  assert (Hshape : Forall (fun l : list float => length l = 13%nat) buses).
  { apply parse_buses_returns in Hbuses
      as (rows0 & term0 & entries & _ & _ & _ & Hent & -> & _).
    apply Forall_fmap. clear -Hent.
    induction Hent as [|r [[i name] rec] rs es Hr _ IH]; constructor;
      [|exact IH].
    apply bus_entry_row in Hr as [_ Hrec].
    apply bus_record_defaults in Hrec as ((Hlen & _) & _). exact Hlen. }
  destruct (run_rows_loads_total busmap version rows Hok buses 0%nat
              Hshape Hrange) as (bus' & Hrun).
  exists bus'. unfold _parse_loads. rewrite next_then_loop.
  rewrite (enter_rows _ _ _ Hterm _ _ _ Hrows).
  destruct (run_rows (load_body py_float busmap version) rows buses 0%nat)
    as [l [[b c]|e]]; simpl in Hrun; [|discriminate].
  injection Hrun as -> ->. reflexivity.
Qed.

Lemma load_body_frame busmap version r c (bus bus' : table) k :
  outcome (load_body py_float busmap version r c bus) = Return bus' ->
  (forall i, field r 0 = Return i ->
     busmap !! PyStr.strip_quote i <> Some k) ->
  bus' !! k = bus !! k.
Proof.
  intros H Hk.
  apply load_body_inv in H as (status & i & _ & H0 & [[_ ->] | H]);
    [reflexivity|].
  destruct H as (idx & line & pl & ql & _ & Hmap & _ & _ & _ & _ & ->).
  apply list_lookup_insert_ne. intros ->. exact (Hk i H0 Hmap).
Qed.

(** X8.  A row of the bus table that no data row of the load section
    refers to is returned unchanged. *)
Theorem load_reader_other_buses_untouched rows term rest (bus : table) busmap
    version (bus' : table) reader' k :
  Forall data_row rows ->
  terminator_row term ->
  outcome (_parse_loads py_float (rows ++ term :: rest)%list bus busmap
             version) = Return (bus', reader') ->
  Forall (fun r => forall i, field r 0 = Return i ->
                     busmap !! PyStr.strip_quote i <> Some k) rows ->
  bus' !! k = bus !! k.
Proof.
  intros Hrows Hterm H Hk.
  unfold _parse_loads in H. rewrite next_then_loop in H.
  rewrite (enter_rows _ _ _ Hterm _ _ _ Hrows) in H.
  apply L_bind_Return_inv in H as ([[bus0 c] reader0] & Hloop & H).
  injection H as <- <-.
  apply L_bind_Return_inv in Hloop as ([bus1 c1] & Hrun & Hloop).
  injection Hloop as <- _ _.
  clear Hrows Hterm. revert bus Hrun. generalize 0%nat.
  induction Hk as [|r rows Hr _ IH]; intros c0 bus Hrun.
  - injection Hrun as <- _. reflexivity.
  - cbn [run_rows] in Hrun.
    apply L_bind_Return_inv in Hrun as (busmid & Hbody & Hrun).
    rewrite (IH _ _ Hrun). eapply load_body_frame; eassumption.
Qed.

End LoadFrame.

(** ** Further facts: the sniffers and the header reader *)

Lemma before_slash_plain (a : string) :
  PyStr.contains "/" a = false -> PyStr.before_slash a = a.
Proof.
  induction a as [|x a IH]; simpl; intros H; [reflexivity|].
  apply orb_false_elim in H as [Hx Ha]. rewrite Hx, (IH Ha). reflexivity.
Qed.

(** X12.  [_delimiter] returns ["," ] or [" "] and nothing else.  It
    looks at the first line only, and only at what precedes the first
    ["/"]: a comma in the trailing comment does not make the file
    comma-delimited.  On an empty file it raises [StopIteration]. *)
Theorem delimiter_sniffed :
  (forall fd sep,
     outcome (_delimiter fd) = Return sep -> sep = "," \/ sep = " ") /\
  (forall a rest,
     PyStr.contains "/" a = false ->
     _delimiter (Some (a :: rest)) =
       if PyStr.contains "," a
       then Run [Log INFO CommaDelimited] (Return ",")
       else Run [Log INFO WhitespaceDelimited] (Return " ")) /\
  (forall a c rest,
     PyStr.contains "/" a = false ->
     _delimiter (Some ((a ++ String "/" c) :: rest)) = _delimiter (Some [a])) /\
  _delimiter (Some []) = Run [] (Raise StopIteration) /\
  _delimiter None = Run [] (Raise AttributeError).
Proof.
  split; [|split; [|split; [|split; reflexivity]]].
  - intros [[|line rest]|] sep; try discriminate.
    unfold _delimiter. simpl.
    destruct (PyStr.contains "," (PyStr.before_slash line)); simpl;
      intros H; injection H as <-; auto.
  - intros a rest Ha. unfold _delimiter. simpl.
    rewrite (before_slash_plain a Ha).
    destruct (PyStr.contains "," a); reflexivity.
  - intros a c rest Ha. unfold _delimiter. simpl.
    rewrite (before_slash_app a c Ha), (before_slash_plain a Ha). reflexivity.
Qed.

Section SnifferFacts.

Variable csv_reader : string -> file -> list row.

(** X13.  Whatever the file holds, a revision returned by [_version]
    is one of the supported revisions 29, 30, 31 and 32. *)
Theorem version_always_supported fd sep v :
  outcome (_version csv_reader fd sep) = Return v ->
  v ∈ SUPPORTED_VERSIONS.
Proof.
  unfold _version. intros H.
  apply L_bind_Return_inv in H as (f & _ & H).
  apply L_bind_Return_inv in H as ([h0 rest] & _ & H).
  destruct (length h0 <? 3)%nat.
  - injection H as <-. unfold SUPPORTED_VERSIONS, DEFAULT_VERSION.
    repeat constructor.
  - apply L_bind_Return_inv in H as (h02 & _ & H).
    apply L_bind_Return_inv in H as (version & _ & H).
    apply L_bind_Return_inv in H as (u & _ & H).
    destruct (py_in version SUPPORTED_VERSIONS) eqn:Hin; simpl in H;
      injection H as <-.
    + apply py_in_elem_of. exact Hin.
    + unfold SUPPORTED_VERSIONS, DEFAULT_VERSION. repeat constructor.
Qed.

(** X14.  [_version] does not fall back to the default revision on
    every input: it raises [StopIteration] where the reader yields no
    row, and [ValueError] where the third field of the first row does
    not read as an integer. *)
Theorem version_errors sep :
  _version csv_reader None sep = Run [] (Raise AttributeError) /\
  (forall fd,
     csv_reader sep fd = [] ->
     _version csv_reader (Some fd) sep = Run [] (Raise StopIteration)) /\
  (forall fd h0 rest h02,
     csv_reader sep fd = h0 :: rest ->
     h0 !! 2%nat = Some h02 ->
     revision_field_value h02 = None ->
     _version csv_reader (Some fd) sep = Run [] (Raise ValueError)).
Proof.
  split; [reflexivity|]. split.
  - intros fd Hcsv. unfold _version. simpl. rewrite Hcsv. reflexivity.
  - intros fd h0 rest h02 Hcsv H2 Hv.
    assert (Hlen : (length h0 <? 3)%nat = false).
    { apply Nat.ltb_ge. apply lookup_lt_Some in H2. lia. }
    unfold _version, field, to_int. simpl. rewrite Hcsv. simpl.
    rewrite Hlen, H2. unfold revision_field_value in Hv.
    destruct (PyStr.contains "/" h02); rewrite Hv; reflexivity.
Qed.

End SnifferFacts.

Section HeaderFacts.

Variable py_float : string -> option float.

(** X15.  The header reader takes its three rows before it looks at
    any of them: on fewer than three rows it raises [StopIteration]
    whatever the first row holds.  An empty first row, or a first row
    without a second field, raises [IndexError], and a second field
    that is not a float raises [ValueError]. *)
Theorem header_errors :
  (forall reader,
     (length reader < 3)%nat ->
     _parse_header py_float reader = Raise StopIteration) /\
  (forall r1 r2 rest,
     _parse_header py_float ([] :: r1 :: r2 :: rest) = Raise IndexError) /\
  (forall f0 r1 r2 rest,
     f0 = "0" \/ f0 = "1" ->
     _parse_header py_float ([f0] :: r1 :: r2 :: rest) = Raise IndexError) /\
  (forall f0 f1 more r1 r2 rest,
     f0 = "0" \/ f0 = "1" ->
     py_float f1 = None ->
     _parse_header py_float ((f0 :: f1 :: more) :: r1 :: r2 :: rest) =
       Raise ValueError).
Proof.
  split; [|split; [|split]].
  - intros [|h0 [|r1 [|r2 rest]]] Hlen; simpl in Hlen; try lia; reflexivity.
  - reflexivity.
  - intros f0 r1 r2 rest [-> | ->]; reflexivity.
  - intros f0 f1 more r1 r2 rest Hf0 Hf1.
    unfold _parse_header, to_float. simpl.
    destruct Hf0 as [-> | ->]; simpl; rewrite Hf1; reflexivity.
Qed.

End HeaderFacts.

(** ** Further facts: the entry point and the command line *)

Section CommandLineFacts.

Variable py_float : string -> option float.
Variable csv_reader : string -> file -> list row.
Variable open_rb : string -> option file.
Variable splitext : string -> string * string.

Lemma parse_file_never_returns fd version delimiter ppc :
  outcome (_parse_file py_float csv_reader fd version delimiter) <> Return ppc.
Proof.
  intros H.
  destruct (outcome (sections_to_loads py_float csv_reader fd version
                       delimiter)) as [pre|e] eqn:Hpre.
  - rewrite (parse_file_after_loads _ _ _ _ _ _ Hpre) in H. discriminate.
  - unfold _parse_file in H.
    rewrite (outcome_bind_Raise _ _ _ Hpre) in H. discriminate.
Qed.

Lemma psse2case_returns_dict casefile version delimiter r :
  outcome (psse2case py_float csv_reader open_rb casefile version delimiter) =
    Return r ->
  exists ppc, casefile = Dict ppc /\ r = Some ppc.
Proof.
  destruct casefile as [ppc | name | fd]; intros H.
  - injection H as <-. eauto.
  - exfalso. unfold psse2case in H.
    apply L_bind_Return_inv in H as (u & _ & H).
    apply L_bind_Return_inv in H as (u' & _ & H).
    apply L_bind_Return_inv in H as (ppc & H & _).
    exact (parse_file_never_returns _ _ _ _ H).
  - exfalso. unfold psse2case in H.
    apply L_bind_Return_inv in H as (ppc & H & _).
    exact (parse_file_never_returns _ _ _ _ H).
Qed.

(** X16.  [psse2case] returns only when it is called on a dictionary,
    which it returns as it is without logging; called on a path or on
    a stream it raises, whatever the file system and the file hold. *)
Theorem psse2case_returns_only_dicts casefile version delimiter r :
  outcome (psse2case py_float csv_reader open_rb casefile version delimiter) =
    Return r ->
  exists ppc,
    casefile = Dict ppc /\ r = Some ppc /\
    psse2case py_float csv_reader open_rb casefile version delimiter =
      Run [] (Return (Some ppc)).
Proof.
  intros H. destruct (psse2case_returns_dict _ _ _ _ H) as (ppc & -> & ->).
  exists ppc. repeat split.
Qed.

(** X17.  [main] never reaches [savemat]: whatever the options and
    arguments, it ends in [sys.exit] or in an uncaught exception. *)
Theorem main_never_saves options args outfile mpc :
  ending (main py_float csv_reader open_rb splitext options args) <>
  Savemat outfile mpc.
Proof.
  unfold main.
  destruct (match given (opt_revision options) with
            | Some r => z ← to_int r; mret (Some z)
            | None => mret None
            end) as [revision|e]; [|discriminate].
  destruct (match given (opt_delimiter options) with
            | Some d => _ | None => _ end) as [warned delimiter].
  destruct args as [|infile [|a args]]; try discriminate.
  cbv zeta. cbn [ending].
  destruct (outcome (psse2case py_float csv_reader open_rb (Path infile)
                       revision delimiter)) as [r|e] eqn:Hrun;
    [|discriminate].
  apply psse2case_returns_dict in Hrun as (ppc & Hd & _). discriminate.
Qed.

(** X18.  A revision option that is not an integer ends [main] in
    [ValueError] before anything is printed, also when the input file
    argument is missing; otherwise a number of arguments other than
    one ends it in [sys.exit(1)] after the help text. *)
Theorem main_argument_errors options args :
  (forall r, given (opt_revision options) = Some r -> PyStr.int r = None ->
     ending (main py_float csv_reader open_rb splitext options args) =
       Uncaught ValueError /\
     events (main py_float csv_reader open_rb splitext options args) = []) /\
  ((forall r, given (opt_revision options) = Some r -> PyStr.int r <> None) ->
   length args <> 1%nat ->
   ending (main py_float csv_reader open_rb splitext options args) =
     SysExit 1 /\
   last (events (main py_float csv_reader open_rb splitext options args)) =
     Some PrintHelp).
Proof.
  split.
  - intros r Hr Hint. unfold main, to_int. rewrite Hr, Hint. split; reflexivity.
  - intros Hrev Hargs. unfold main, to_int.
    destruct (given (opt_revision options)) as [r|].
    + destruct (PyStr.int r) as [z|] eqn:Hint;
        [|exfalso; exact (Hrev r eq_refl Hint)].
      simpl.
      destruct (match given (opt_delimiter options) with
                | Some d => _ | None => _ end) as [warned delimiter].
      destruct args as [|infile [|a args]]; simpl in *; try lia;
        split; try reflexivity; apply last_snoc.
    + simpl.
      destruct (match given (opt_delimiter options) with
                | Some d => _ | None => _ end) as [warned delimiter].
      destruct args as [|infile [|a args]]; simpl in *; try lia;
        split; try reflexivity; apply last_snoc.
Qed.

End CommandLineFacts.

(** ** The further facts at sample inputs *)

(** [bus_reader_stops_at_terminator] at the bus section of the
    round-trip file followed by its load row. *)
Lemma bus_reader_stops_at_terminator_witness :
  exists rows term,
    (Sample.bus_rows ++ ["0 / END OF BUS DATA"] :: Sample.load_rows)%list =
      (rows ++ term :: Sample.load_rows)%list /\
    Forall data_row rows /\
    terminator_row term /\
    length Sample.bus_table = length rows.
Proof.
  apply (bus_reader_stops_at_terminator Sample.float_of_literal _ 30
           Sample.bus_table Sample.bus_index Sample.load_rows).
  vm_compute. reflexivity.
Defined.

(** [bus_index_in_range] at the name of bus 2. *)
Lemma bus_index_in_range_witness : (1 < length Sample.bus_table)%nat.
Proof.
  apply (bus_index_in_range Sample.float_of_literal
           (Sample.bus_rows ++ ["0 / END OF BUS DATA"] :: Sample.load_rows)%list
           30 Sample.bus_table Sample.bus_index Sample.load_rows
           ltac:(vm_compute; reflexivity) "BUS2" 1%nat).
  vm_compute. reflexivity.
Defined.

(** [bus_index_keys] at the same bus section. *)
Lemma bus_index_keys_witness :
  exists rows term,
    (Sample.bus_rows ++ ["0 / END OF BUS DATA"] :: Sample.load_rows)%list =
      (rows ++ term :: Sample.load_rows)%list /\
    forall key,
      is_Some (Sample.bus_index !! key) <->
      exists r, r ∈ rows /\ key ∈ row_keys r.
Proof.
  apply (bus_index_keys Sample.float_of_literal _ 30
           Sample.bus_table Sample.bus_index Sample.load_rows).
  vm_compute. reflexivity.
Defined.

(** [bus_table_defaults] at the same bus section. *)
Lemma bus_table_defaults_witness :
  Forall bus_defaults Sample.bus_table /\
  (py_in 30 [29; 30]%Z = false ->
   Forall (fun rec => rec !! 4%nat = Some F64.zero /\
                      rec !! 5%nat = Some F64.zero) Sample.bus_table).
Proof.
  apply (bus_table_defaults Sample.float_of_literal
           (Sample.bus_rows ++ ["0 / END OF BUS DATA"] :: Sample.load_rows)%list
           30 Sample.bus_table Sample.bus_index Sample.load_rows).
  vm_compute. reflexivity.
Defined.

(** [bus_lookup_last_wins] at two buses named BUS: the name, quoted,
    is resolved to the second one. *)
Lemma bus_lookup_last_wins_witness :
  (1 < length Sample.bus_table)%nat /\
  forall q, PyStr.strip_quote q = "BUS" ->
    _busidx q Cases.twin_bus_index = Run [] (Return (Some 1%nat)).
Proof.
  apply (bus_lookup_last_wins Sample.float_of_literal 30 Cases.twin_bus_rows
           ["0"] [] Sample.bus_table Cases.twin_bus_index [] 1%nat
           ["2"; "'BUS'"; "138"; "1"; "0"; "0"; "1"; "1"; "1"; "0"; "1"]
           "BUS").
  - repeat constructor.
  - reflexivity.
  - vm_compute. reflexivity.
  - reflexivity.
  - right. left.
  - intros j r' Hj Hr'. destruct j as [|[|j]]; [lia | lia | discriminate].
Defined.

(** [load_reader_touches_loads_only] at the load section of the
    round-trip file. *)
Lemma load_reader_touches_loads_only_witness :
  same_but_loads Sample.bus_table Cases.bus_table_loaded /\
  exists rows term,
    (Sample.load_rows ++ [["0 / END OF LOAD DATA"]])%list =
      (rows ++ term :: [])%list /\
    Forall data_row rows /\
    terminator_row term.
Proof.
  apply (load_reader_touches_loads_only Sample.float_of_literal _
           Sample.bus_table Sample.bus_index 30 Cases.bus_table_loaded []).
  vm_compute. reflexivity.
Defined.

(** [load_reader_last_row_wins] at two loads at bus 2: the load fields
    end as 7 and 3, not 17 and 8. *)
Lemma load_reader_last_row_wins_witness :
  exists bus' : table,
    outcome (_parse_loads Sample.float_of_literal
               (Cases.two_load_rows ++ [["0"]])%list
               Sample.bus_table Sample.bus_index 30) = Return (bus', []) /\
    cell bus' 1 2 = Return (F64.of_Z 7) /\
    cell bus' 1 3 = Return (F64.of_Z 3).
Proof.
  eexists. split; [vm_compute; reflexivity|].
  apply (load_reader_last_row_wins Sample.float_of_literal
           [["2"; "1"; "1"; "1"; "1"; "10"; "5"; "0"; "0"; "0"; "0"; "1"]]
           ["2"; "2"; "1"; "1"; "1"; "7"; "3"; "0"; "0"; "0"; "0"; "1"]
           ["0"] [] Sample.bus_table Sample.bus_index 30 _ [] "1" "2" 1%nat);
    try reflexivity.
  - repeat constructor.
  - discriminate.
Defined.

(** [load_reader_other_buses_untouched] at the row of bus 1, to which
    the load section of the round-trip file does not refer. *)
Lemma load_reader_other_buses_untouched_witness :
  Cases.bus_table_loaded !! 0%nat = Sample.bus_table !! 0%nat.
Proof.
  apply (load_reader_other_buses_untouched Sample.float_of_literal
           Sample.load_rows ["0 / END OF LOAD DATA"] []
           Sample.bus_table Sample.bus_index 30 Cases.bus_table_loaded []).
  - repeat constructor.
  - reflexivity.
  - vm_compute. reflexivity.
  - constructor; [|constructor].
    intros i Hi. injection Hi as <-. vm_compute. discriminate.
Defined.

(** [load_reader_after_bus_reader] at the bus and load sections of the
    round-trip file. *)
Lemma load_reader_after_bus_reader_witness :
  exists bus' : table,
    outcome (_parse_loads Sample.float_of_literal
               (Sample.load_rows ++ [["0 / END OF LOAD DATA"]])%list
               Sample.bus_table Sample.bus_index 30) = Return (bus', []).
Proof.
  apply (load_reader_after_bus_reader Sample.float_of_literal
           (Sample.bus_rows ++ ["0 / END OF BUS DATA"] :: Sample.load_rows)%list
           30 Sample.bus_table Sample.bus_index Sample.load_rows
           Sample.load_rows ["0 / END OF LOAD DATA"] []).
  - vm_compute. reflexivity.
  - repeat constructor.
  - reflexivity.
  - constructor; [|constructor].
    split; [eexists; reflexivity|]. split.
    + intros k Hk.
      repeat (apply elem_of_cons in Hk as [-> | Hk];
              [eexists; vm_compute; reflexivity|]).
      apply elem_of_nil in Hk. contradiction.
    + discriminate.
Defined.

(** [generator_reader_returns] at a section of one generator at bus 2
    and one at an unknown bus 9. *)
Lemma generator_reader_returns_witness :
  exists gens : table,
    outcome (_parse_generators Sample.float_of_literal
               [Sample.gen_row_out_of_service; ["9"]; ["0"]]
               Sample.bus_index) = Return (gens, []) /\
    Forall gen_unassigned gens /\
    exists rows term,
      [Sample.gen_row_out_of_service; ["9"]; ["0"]] =
        (rows ++ term :: [])%list /\
      Forall data_row rows /\
      terminator_row term /\
      length gens = length (List.filter (bus_found Sample.bus_index) rows).
Proof.
  eexists. split; [vm_compute; reflexivity|].
  apply (generator_reader_returns Sample.float_of_literal
           [Sample.gen_row_out_of_service; ["9"]; ["0"]] Sample.bus_index).
  vm_compute. reflexivity.
Defined.

(** [branch_reader_returns] at a section of one branch from bus 2 to
    bus 1 and one from an unknown bus 9. *)
Lemma branch_reader_returns_witness :
  exists branches : table,
    outcome (_parse_nontransformer_branches Sample.float_of_literal
               [Sample.branch_row_2_1; ["9"; "1"]; ["0"]]
               Sample.bus_table Sample.bus_index) = Return (branches, []) /\
    Forall branch_defaults branches /\
    exists rows term,
      [Sample.branch_row_2_1; ["9"; "1"]; ["0"]] =
        (rows ++ term :: [])%list /\
      Forall data_row rows /\
      terminator_row term /\
      length branches = length (resolved_branches Sample.bus_index rows).
Proof.
  eexists. split; [vm_compute; reflexivity|].
  apply (branch_reader_returns Sample.float_of_literal
           [Sample.branch_row_2_1; ["9"; "1"]; ["0"]]
           Sample.bus_table Sample.bus_index).
  vm_compute. reflexivity.
Defined.

(** [delimiter_sniffed] at a blank-separated header whose comment
    holds a comma. *)
Lemma delimiter_sniffed_witness :
  _delimiter (Some ["1 100.0 30 / PSS/E 30, RAW"; "title"; "title"]) =
  Run [Log INFO WhitespaceDelimited] (Return " ").
Proof.
  destruct delimiter_sniffed as (_ & Hplain & Hcomment & _).
  etransitivity;
    [exact (Hcomment "1 100.0 30 " " PSS/E 30, RAW" ["title"; "title"] eq_refl)|].
  exact (Hplain "1 100.0 30 " [] eq_refl).
Defined.

(** [version_always_supported] at a header announcing revision 33. *)
Lemma version_always_supported_witness :
  outcome (_version Sample.csv (Some ["1,100,33"]) ",") = Return 30%Z /\
  30%Z ∈ SUPPORTED_VERSIONS.
Proof.
  split; [reflexivity|].
  apply (version_always_supported Sample.csv (Some ["1,100,33"]) "," 30%Z).
  reflexivity.
Defined.

(** [version_errors] at a header whose third field is not a number. *)
Lemma version_errors_witness :
  _version Sample.csv (Some ["1,100,abc"]) "," = Run [] (Raise ValueError).
Proof.
  destruct (version_errors Sample.csv ",") as (_ & _ & H).
  apply (H ["1,100,abc"] ["1"; "100"; "abc"] [] "abc"); reflexivity.
Defined.

(** [header_errors] at a file of two rows and at a header whose base
    MVA is not a number. *)
Lemma header_errors_witness :
  _parse_header Sample.float_of_literal [["2"; "100"; "30"]; ["title"]] =
    Raise StopIteration /\
  _parse_header Sample.float_of_literal
    [["1"; "x"; "30"]; ["title"]; ["title"]] = Raise ValueError.
Proof.
  destruct (header_errors Sample.float_of_literal) as (Hshort & _ & _ & Hfloat).
  split.
  - apply Hshort. simpl. lia.
  - apply Hfloat; [right; reflexivity | reflexivity].
Defined.

(** [psse2case_returns_only_dicts] at an empty case. *)
Lemma psse2case_returns_only_dicts_witness :
  exists ppc,
    Dict (Case F64.zero [] [] []) = Dict ppc /\
    Some (Case F64.zero [] [] []) = Some ppc /\
    psse2case Sample.float_of_literal Sample.csv Sample.no_file
      (Dict (Case F64.zero [] [] [])) None None = Run [] (Return (Some ppc)).
Proof.
  apply (psse2case_returns_only_dicts Sample.float_of_literal Sample.csv
           Sample.no_file (Dict (Case F64.zero [] [] [])) None None).
  reflexivity.
Defined.

(** [main_never_saves] at a single argument naming a missing file. *)
Lemma main_never_saves_witness :
  ending (main Sample.float_of_literal Sample.csv Sample.no_file
            Cases.no_extension Cases.no_options ["case"]) <>
  Savemat "case.mat" None.
Proof.
  apply (main_never_saves Sample.float_of_literal Sample.csv Sample.no_file
           Cases.no_extension Cases.no_options ["case"] "case.mat" None).
Defined.

(** [main_argument_errors] at [-r abc] without arguments, and at no
    option and no argument. *)
Lemma main_argument_errors_witness :
  ending (main Sample.float_of_literal Sample.csv Sample.no_file
            Cases.no_extension (Options None false false (Some "abc") None)
            []) = Uncaught ValueError /\
  ending (main Sample.float_of_literal Sample.csv Sample.no_file
            Cases.no_extension Cases.no_options []) = SysExit 1.
Proof.
  split.
  - destruct (main_argument_errors Sample.float_of_literal Sample.csv
                Sample.no_file Cases.no_extension
                (Options None false false (Some "abc") None) []) as [H _].
    apply (H "abc"); reflexivity.
  - destruct (main_argument_errors Sample.float_of_literal Sample.csv
                Sample.no_file Cases.no_extension Cases.no_options [])
      as [_ H].
    apply H; [discriminate | simpl; lia].
Defined.
